(** * Trap log ingestion: shallow embedding of
    [app/services/trap_processor_service.py] ([TrapProcessorService])
    and of the settings of [app/config.py].

    Python [str] values are modelled as [list ascii]; an [ascii] stands for
    a code point U+0000..U+00FF.  Python [int] is [Z]. *)

From Stdlib Require Import Ascii String ZArith.
From stdpp Require Import base list gmap sets strings.

Open Scope Z_scope.

Abbreviation pystr := (list ascii).

(** A string literal as a Python [str]. *)
Definition lit (s : string) : pystr := list_ascii_of_string s.

Definition TAB : ascii := "009"%char.
Definition NL : ascii := "010"%char.

(** ** Python [str] primitives *)

(** [s.startswith(p)] *)
Fixpoint py_startswith (p s : pystr) : bool :=
  match p, s with
  | [], _ => true
  | c :: p', d :: s' => bool_decide (c = d) && py_startswith p' s'
  | _ :: _, [] => false
  end.

(** [s.find(sub)]: the first index of [sub] in [s]. *)
Fixpoint py_find (sub s : pystr) : option nat :=
  if py_startswith sub s then Some 0%nat
  else match s with
       | [] => None
       | _ :: s' => S <$> py_find sub s'
       end.

(** [sub in s] *)
Definition py_in (sub s : pystr) : bool := bool_decide (is_Some (py_find sub s)).

(** [s.index(sub)]: like [find], raising [ValueError] (here [None]) when
    [sub] does not occur. *)
Definition py_index (s sub : pystr) : option Z := Z.of_nat <$> py_find sub s.

(** Python slice bound normalisation: negative indices count from the end,
    then the bound is clamped to [0, len]. *)
Definition slice_bound (len i : Z) : Z :=
  if i <? 0 then Z.max 0 (len + i) else Z.min i len.

(** [s[a:b]] *)
Definition py_slice (s : pystr) (a b : Z) : pystr :=
  let len := Z.of_nat (length s) in
  let a' := slice_bound len a in
  let b' := slice_bound len b in
  take (Z.to_nat (b' - a')) (drop (Z.to_nat a') s).

(** [s[:n]] and [s[n:]] for [n >= 0] *)
Definition py_prefix (s : pystr) (n : nat) : pystr := take n s.
Definition py_from (s : pystr) (n : nat) : pystr := drop n s.

(** [str.isspace] on code points up to U+00FF. *)
Definition py_isspace (c : ascii) : bool :=
  let n := nat_of_ascii c in
  bool_decide ((9 <= n <= 13)%nat \/ (28 <= n <= 32)%nat \/ n = 133%nat
               \/ n = 160%nat).

Fixpoint py_lstrip (s : pystr) : pystr :=
  match s with
  | c :: s' => if py_isspace c then py_lstrip s' else s
  | [] => []
  end.

Definition py_rstrip (s : pystr) : pystr := reverse (py_lstrip (reverse s)).

(** [s.strip()] *)
Definition py_strip (s : pystr) : pystr := py_rstrip (py_lstrip s).

(** [s.split(sep)] for a one-character separator. *)
Fixpoint py_split (sep : ascii) (s : pystr) : list pystr :=
  match s with
  | [] => [[]]
  | c :: s' =>
      if bool_decide (c = sep) then [] :: py_split sep s'
      else match py_split sep s' with
           | w :: ws => (c :: w) :: ws
           | [] => [[c]]
           end
  end.

(** [lst[i]] for [i >= 0]; [IndexError] is [None]. *)
Definition py_get {A} (l : list A) (i : nat) : option A := l !! i.

(** ** Python [int(s)] on a decimal string *)

Definition digit_val (c : ascii) : option Z :=
  let n := nat_of_ascii c in
  if bool_decide (48 <= n <= 57)%nat then Some (Z.of_nat n - 48) else None.

(** Digits with single underscores between them, as [int] accepts them:
    [digit ('_'? digit)*].  [acc] is the value read so far. *)
Fixpoint int_digits (acc : Z) (s : pystr) : option Z :=
  match s with
  | [] => Some acc
  | c :: s' =>
      match digit_val c with
      | Some d => int_digits (10 * acc + d) s'
      | None =>
          if bool_decide (c = "_"%char) then
            match s' with
            | c' :: s'' =>
                match digit_val c' with
                | Some d => int_digits (10 * acc + d) s''
                | None => None
                end
            | [] => None
            end
          else None
      end
  end.

Definition int_unsigned (s : pystr) : option Z :=
  match s with
  | c :: s' =>
      match digit_val c with
      | Some d => int_digits d s'
      | None => None
      end
  | [] => None
  end.

(** [int(s)]: surrounding whitespace is ignored, an optional sign is
    accepted; anything else raises [ValueError] ([None]). *)
Definition py_int (s : pystr) : option Z :=
  match py_strip s with
  | "-"%char :: r => Z.opp <$> int_unsigned r
  | "+"%char :: r => int_unsigned r
  | r => int_unsigned r
  end.

(** ** [datetime.datetime] *)

Record datetime := mk_datetime {
  dt_year : Z; dt_month : Z; dt_day : Z;
  dt_hour : Z; dt_minute : Z; dt_second : Z
}.
(** Every [datetime] of this module is built by [_extract_date] with
    microsecond 0 and no tzinfo, so those fields are left out. *)

Definition is_leap (y : Z) : bool :=
  (y mod 4 =? 0) && (negb (y mod 100 =? 0) || (y mod 400 =? 0)).

Definition days_in_month (y m : Z) : Z :=
  if m =? 2 then (if is_leap y then 29 else 28)
  else if (m =? 4) || (m =? 6) || (m =? 9) || (m =? 11) then 30
  else 31.

(** The constructor [datetime(year, month, day, hour, minute, second)]:
    out-of-range fields raise [ValueError] ([None]). *)
Definition py_datetime (y mo d h mi s : Z) : option datetime :=
  if (1 <=? y) && (y <=? 9999) && (1 <=? mo) && (mo <=? 12)
     && (1 <=? d) && (d <=? days_in_month y mo)
     && (0 <=? h) && (h <=? 23) && (0 <=? mi) && (mi <=? 59)
     && (0 <=? s) && (s <=? 59)
  then Some (mk_datetime y mo d h mi s) else None.

(** ** [_extract_date] (lines 87-107): any exception gives [None]. *)
Definition _extract_date (date_part : pystr) : option datetime :=
  let parts := py_split "-"%char date_part in
  year ← py_get parts 0 ≫= py_int;
  month ← py_get parts 1 ≫= py_int;
  day_time ← py_get parts 2;
  day ← py_int (py_prefix day_time 2);
  let time_part := py_from day_time 2 in
  let time_parts := py_split ":"%char time_part in
  hour ← py_get time_parts 0 ≫= py_int;
  minute ← py_get time_parts 1 ≫= py_int;
  sec_s ← py_get time_parts 2;
  second ← py_int (py_prefix sec_s 2);
  py_datetime year month day hour minute second.

(** ** Settings ([app/config.py]); the defaults are those of [Settings]. *)
Record settings := mk_settings {
  DEFAULT_OPERATOR_ID : Z;
  EVENTO_DOWN : Z;
  EVENTO_UP : Z;
  TIPO_IDENTIFICADOR_IP : Z;
  OUTPUT_FOLDER : pystr  (** as [str(Path(OUTPUT_FOLDER))] renders it *)
}.

(** [OUTPUT_FOLDER = "./Output"]; [pathlib] drops the leading ["./"]. *)
Definition default_settings : settings := mk_settings 1 1 2 2 (lit "Output").

(** ** The identifier catalogue (table [IdentificadorObjeto]) *)
Record identificador_objeto := mk_ident {
  ObjetoId : Z;
  TipoIdentificadorId : Z;
  ValorIdentificador : pystr
}.

(** The database seen through the session: either it answers queries on
    the rows of [IdentificadorObjeto] (in the order the server returns
    them), or every [session.execute] raises. *)
Inductive db :=
  | DbUp (rows : list identificador_objeto)
  | DbDown.

(** [ValorIdentificador.contains(identifier)]: [LIKE '%identifier%'],
    taken as a plain substring test. *)
Definition valor_contains (identifier : pystr) (r : identificador_objeto) : bool :=
  py_in identifier (ValorIdentificador r).

(** [select(ObjetoId).where(ValorIdentificador.contains(identifier)).limit(1)]
    followed by [result.first()]: [inl tt] when [execute] raises. *)
Definition query_objeto_id (d : db) (identifier : pystr) : unit + option Z :=
  match d with
  | DbDown => inl tt
  | DbUp rows =>
      inr (ObjetoId <$> head (filter (fun r => valor_contains identifier r = true) rows))
  end.

(** [select(ValorIdentificador).where(TipoIdentificadorId == TIPO_IDENTIFICADOR_IP)] *)
Definition query_ips (cfg : settings) (d : db) : unit + list pystr :=
  match d with
  | DbDown => inl tt
  | DbUp rows =>
      inr (ValorIdentificador <$>
             filter (fun r => TipoIdentificadorId r = TIPO_IDENTIFICADOR_IP cfg) rows)
  end.

(** ** Service state: the attributes of [TrapProcessorService] *)
Record service := mk_service {
  ip_list : list pystr;
  identificadores_cache : gmap pystr Z
}.

(** [__init__] *)
Definition init_service : service := mk_service [] ∅.

(** [_load_ip_list] (lines 39-50): the exception is re-raised. *)
Definition _load_ip_list (cfg : settings) (d : db) (st : service) : unit + service :=
  match query_ips cfg d with
  | inl e => inl e
  | inr ips => inr (mk_service ips (identificadores_cache st))
  end.

(** [_get_objeto_id_by_identifier] (lines 52-76).  A row is a one-element
    tuple, hence truthy even when its [ObjetoId] is 0. *)
Definition _get_objeto_id_by_identifier (d : db) (st : service) (identifier : pystr)
    : option Z * service :=
  match identifier with
  | [] => (None, st)
  | _ =>
      match identificadores_cache st !! identifier with
      | Some v => (Some v, st)
      | None =>
          match query_objeto_id d identifier with
          | inl _ => (None, st)
          | inr None => (None, st)
          | inr (Some objeto_id) =>
              (Some objeto_id,
               mk_service (ip_list st) (<[identifier := objeto_id]> (identificadores_cache st)))
          end
      end
  end.

(** Python truthiness of an [Optional[int]]. *)
Definition truthy (o : option Z) : bool :=
  match o with Some v => negb (v =? 0) | None => false end.

(** The loop of [_find_by_ip] over a suffix of [ip_list]. *)
Fixpoint find_by_ip_loop (d : db) (line : pystr) (ips : list pystr) (st : service)
    : option Z * service :=
  match ips with
  | [] => (None, st)
  | ip :: ips' =>
      if py_in ip line then
        let '(objeto_id, st1) := _get_objeto_id_by_identifier d st (py_strip ip) in
        if truthy objeto_id then (objeto_id, st1)
        else find_by_ip_loop d line ips' st1
      else find_by_ip_loop d line ips' st
  end.

(** [_find_by_ip] (lines 78-85).  The loop iterates over the list object
    read at its start; [_get_objeto_id_by_identifier] never rebinds it. *)
Definition _find_by_ip (d : db) (st : service) (line : pystr) : option Z * service :=
  find_by_ip_loop d line (ip_list st) st.

(** ** Line classification *)
Definition UP_PATTERNS : list pystr :=
  lit <$> ["LOADING to FULL"; "is up:"; "changed state to up";
           "state has changed from BAD to GOOD"]%string.

Definition DOWN_PATTERNS : list pystr :=
  lit <$> ["FULL to DOWN"; "is down:"; "changed state to down";
           "state has changed from BAD to DEAD"]%string.

(** [_determine_event_type] (lines 109-119) *)
Definition _determine_event_type (cfg : settings) (line : pystr) : Z :=
  if existsb (fun p => py_in p line) UP_PATTERNS then EVENTO_UP cfg
  else if existsb (fun p => py_in p line) DOWN_PATTERNS then EVENTO_DOWN cfg
  else 0.

(** The filter of [_extract_useful_lines]:
    [any(pattern in line for pattern in all_patterns)]. *)
Definition is_useful (line : pystr) : bool :=
  existsb (fun p => py_in p line) (UP_PATTERNS ++ DOWN_PATTERNS).

(** Text-mode iteration over a file: the decoded text (universal newlines
    already translated to ["\n"]) cut after each ["\n"], the terminator kept. *)
Fixpoint py_lines_acc (cur : pystr) (s : pystr) : list pystr :=
  match s with
  | [] => match cur with [] => [] | _ => [reverse cur] end
  | c :: s' =>
      if bool_decide (c = NL) then reverse (c :: cur) :: py_lines_acc [] s'
      else py_lines_acc (c :: cur) s'
  end.

Definition py_lines (s : pystr) : list pystr := py_lines_acc [] s.

(** [_extract_useful_lines] (lines 121-136) on the decoded file content. *)
Definition _extract_useful_lines (content : pystr) : list pystr :=
  py_strip <$> filter (fun line => is_useful line = true) (py_lines content).

(** ** [EventoCreate] ([app/schemas/evento_schema.py]) *)
Record EventoCreate := mk_evento {
  objeto_id : Z;
  tipo_evento : Z;
  operador_registro_id : Z;
  fecha : datetime;
  observaciones : option pystr
}.

(** The Python value passed as [Observaciones=...]. *)
Inductive obs_arg :=
  | ObsNone
  | ObsStr (s : pystr)
  | ObsList (l : list pystr).

(** The keyword arguments of an [EventoCreate(...)] call. *)
Record evento_kwargs := mk_kwargs {
  kw_ObjetoId : Z;
  kw_TipoEvento : Z;
  kw_OperadorRegistroId : Z;
  kw_Fecha : datetime;
  kw_Observaciones : obs_arg
}.

(** Pydantic validation of [EventoCreate(...)]: [observaciones] is an
    [Optional[str]], so only [None] or a [str] is accepted; any other value
    raises [ValidationError] ([None] here). *)
Definition EventoCreate_validate (kw : evento_kwargs) : option EventoCreate :=
  match kw_Observaciones kw with
  | ObsNone => Some (mk_evento (kw_ObjetoId kw) (kw_TipoEvento kw)
                       (kw_OperadorRegistroId kw) (kw_Fecha kw) None)
  | ObsStr s => Some (mk_evento (kw_ObjetoId kw) (kw_TipoEvento kw)
                       (kw_OperadorRegistroId kw) (kw_Fecha kw) (Some s))
  | ObsList _ => None
  end.

(** The tunnel identifier ("marca") of lines 141-150; [None] when the
    branch returns [None] or [line.index] raises. *)
Definition tunnel_marca (line : pystr) : option pystr :=
  if py_in (lit "FULL to DOWN") line || py_in (lit "LOADING to FULL") line then
    idx_tunnel ← py_index line (lit "Tunnel");
    idx_from ← py_index line (lit "from");
    Some (py_strip (py_slice line idx_tunnel idx_from))
  else if py_in (lit "changed state to down") line
          || py_in (lit "changed state to up") line then
    idx_tunnel ← py_index line (lit "Tunnel");
    idx_changed ← (fun i => i - 2) <$> py_index line (lit "changed");
    Some (py_strip (py_slice line idx_tunnel idx_changed))
  else None.

(** Lines 160-174, once an object id [oid] is known: the keyword arguments
    of the [EventoCreate] call, or [None]. *)
Definition event_kwargs (cfg : settings) (line : pystr) (parts : list pystr) (oid : Z)
    : option evento_kwargs :=
  fecha ← py_get parts 0 ≫= _extract_date;
  let tipo_evento := _determine_event_type cfg line in
  if tipo_evento =? 0 then None
  else Some (mk_kwargs oid tipo_evento (DEFAULT_OPERATOR_ID cfg) fecha (ObsList [])).

(** Lines 141-174 of [_process_tunnel_line] up to the [EventoCreate] call:
    the arguments it is called with. *)
Definition tunnel_line_kwargs (cfg : settings) (d : db) (st : service)
    (line : pystr) (parts : list pystr) : option evento_kwargs * service :=
  match tunnel_marca line with
  | None => (None, st)
  | Some marca =>
      let '(objeto_id, st1) := _get_objeto_id_by_identifier d st marca in
      let '(objeto_id, st2) :=
        if truthy objeto_id then (objeto_id, st1) else _find_by_ip d st1 line in
      match objeto_id with
      | Some oid => if truthy (Some oid) then (event_kwargs cfg line parts oid, st2)
                    else (None, st2)
      | None => (None, st2)
      end
  end.

(** [_process_tunnel_line] (lines 138-177) *)
Definition _process_tunnel_line (cfg : settings) (d : db) (st : service)
    (line : pystr) (parts : list pystr) : option EventoCreate * service :=
  let '(kw, st') := tunnel_line_kwargs cfg d st line parts in
  (kw ≫= EventoCreate_validate, st').

(** The identifier of lines 182-184: [line[idx + 12:].split('.')[0]]. *)
Definition object_name_marca (line : pystr) : option pystr :=
  idx ← py_index line (lit "Object_Name=");
  let part_data := py_slice line (idx + 12) (Z.of_nat (length line)) in
  py_get (py_split "."%char part_data) 0.

(** Lines 182-204 of [_process_object_name_line] up to the [EventoCreate]
    call. *)
Definition object_name_line_kwargs (cfg : settings) (d : db) (st : service)
    (line : pystr) (parts : list pystr) : option evento_kwargs * service :=
  match object_name_marca line with
  | None => (None, st)
  | Some marca =>
      let '(objeto_id, st1) := _get_objeto_id_by_identifier d st marca in
      match objeto_id with
      | Some oid => if truthy (Some oid) then (event_kwargs cfg line parts oid, st1)
                    else (None, st1)
      | None => (None, st1)
      end
  end.

(** [_process_object_name_line] (lines 179-208) *)
Definition _process_object_name_line (cfg : settings) (d : db) (st : service)
    (line : pystr) (parts : list pystr) : option EventoCreate * service :=
  let '(kw, st') := object_name_line_kwargs cfg d st line parts in
  (kw ≫= EventoCreate_validate, st').

(** [_process_line] (lines 210-222) *)
Definition _process_line (cfg : settings) (d : db) (st : service) (line : pystr)
    : option EventoCreate * service :=
  let parts := py_split TAB line in
  if bool_decide (length parts < 2)%nat then (None, st)
  else if py_in (lit "Tunnel") line then _process_tunnel_line cfg d st line parts
  else if py_in (lit "Object_Name=") line then _process_object_name_line cfg d st line parts
  else (None, st).

(** The same dispatch, stopping at the arguments of the [EventoCreate]
    call that the selected path makes. *)
Definition line_kwargs (cfg : settings) (d : db) (st : service) (line : pystr)
    : option evento_kwargs * service :=
  let parts := py_split TAB line in
  if bool_decide (length parts < 2)%nat then (None, st)
  else if py_in (lit "Tunnel") line then tunnel_line_kwargs cfg d st line parts
  else if py_in (lit "Object_Name=") line then object_name_line_kwargs cfg d st line parts
  else (None, st).

(** ** [_remove_duplicates] (lines 266-278) *)

Global Instance datetime_eq_dec : EqDecision datetime.
Proof. solve_decision. Defined.

Global Program Instance datetime_countable : Countable datetime :=
  inj_countable'
    (fun t => (dt_year t, dt_month t, dt_day t, dt_hour t, dt_minute t, dt_second t))
    (fun '(y, mo, d, h, mi, s) => mk_datetime y mo d h mi s) _.
Next Obligation. by intros []. Qed.

Abbreviation event_key_t := (Z * Z * datetime)%type.

(** [(event.objeto_id, event.tipo_evento, event.fecha)] *)
Definition event_key (e : EventoCreate) : event_key_t :=
  (objeto_id e, tipo_evento e, fecha e).

(** The loop of [_remove_duplicates]: [seen] is the set built so far, the
    result is what the loop appends to [unique] from here on. *)
Fixpoint remove_duplicates_loop (seen : gset event_key_t) (events : list EventoCreate)
    : list EventoCreate :=
  match events with
  | [] => []
  | event :: events' =>
      let key := event_key event in
      if bool_decide (key ∉ seen) then event :: remove_duplicates_loop ({[key]} ∪ seen) events'
      else remove_duplicates_loop seen events'
  end.

Definition _remove_duplicates (events : list EventoCreate) : list EventoCreate :=
  remove_duplicates_loop ∅ events.

(** ** Text of the SQL script *)

Definition digit_char (n : Z) : ascii := ascii_of_nat (Z.to_nat (48 + n)).

Fixpoint nat_digits (fuel : nat) (n : Z) (acc : pystr) : pystr :=
  match fuel with
  | O => acc
  | S fuel' =>
      let acc' := digit_char (n mod 10) :: acc in
      if n <? 10 then acc' else nat_digits fuel' (n / 10) acc'
  end.

(** [str(n)] for a Python [int]. *)
Definition py_str_int (n : Z) : pystr :=
  if n <? 0 then "-"%char :: nat_digits (Z.to_nat (Z.log2 (- n)) + 1) (- n) []
  else nat_digits (Z.to_nat (Z.log2 n) + 1) n [].

(** [%m], [%d], [%H], [%M], [%S]: two digits, zero padded. *)
Definition pad2 (n : Z) : pystr := if n <? 10 then "0"%char :: py_str_int n else py_str_int n.

(** [fecha.strftime("%Y-%m-%d %H:%M:%S")]; glibc prints [%Y] without
    padding. *)
Definition strftime_fecha (t : datetime) : pystr :=
  py_str_int (dt_year t) ++ lit "-" ++ pad2 (dt_month t) ++ lit "-" ++ pad2 (dt_day t)
  ++ lit " " ++ pad2 (dt_hour t) ++ lit ":" ++ pad2 (dt_minute t)
  ++ lit ":" ++ pad2 (dt_second t).

(** The statement written for one event (lines 293-298). *)
Definition insert_sql (event : EventoCreate) : pystr :=
  lit "INSERT INTO Evento (ObjetoId, TipoEvento, OperadorRegistroId, Fecha) "
  ++ lit "VALUES (" ++ py_str_int (objeto_id event) ++ lit ", "
  ++ py_str_int (tipo_evento event) ++ lit ", "
  ++ py_str_int (operador_registro_id event) ++ lit ", '"
  ++ strftime_fecha (fecha event) ++ lit "');" ++ [NL].

(** ** File system and I/O log *)

Inductive io_action :=
  | IoLoadIps            (** the query of [_load_ip_list] *)
  | IoGlob               (** [traps_folder.glob("*.txt")] *)
  | IoRead (name : pystr)
  | IoMkdir (dir : pystr)
  | IoWrite (path : pystr).

Record fsys := mk_fsys {
  trap_files : list (pystr * pystr);  (** name and decoded text of each [*.txt] trap file, in glob order *)
  dirs : gset pystr;
  files : gmap pystr pystr;
  io_log : list io_action              (** in chronological order *)
}.

Definition fs_log (a : io_action) (fs : fsys) : fsys :=
  mk_fsys (trap_files fs) (dirs fs) (files fs) (io_log fs ++ [a]).

(** [output_path.mkdir(exist_ok=True)] *)
Definition fs_mkdir (dir : pystr) (fs : fsys) : fsys :=
  fs_log (IoMkdir dir) (mk_fsys (trap_files fs) ({[dir]} ∪ dirs fs) (files fs) (io_log fs)).

(** [open(path, 'w')] and the writes made before it is closed. *)
Definition fs_write (path content : pystr) (fs : fsys) : fsys :=
  fs_log (IoWrite path)
    (mk_fsys (trap_files fs) (dirs fs) (<[path := content]> (files fs)) (io_log fs)).

(** [str(output_path / name)] *)
Definition out_path (cfg : settings) (name : pystr) : pystr :=
  OUTPUT_FOLDER cfg ++ lit "/" ++ name.

(** The text [_generate_sql_script] writes. *)
Definition sql_script_text (events : list EventoCreate) : pystr :=
  lit "BEGIN TRANSACTION;" ++ [NL; NL]
  ++ mjoin (insert_sql <$> events)
  ++ [NL] ++ lit "COMMIT;" ++ [NL]
  ++ lit "-- ROLLBACK;" ++ [NL].

(** [_generate_sql_script] (lines 280-305) *)
Definition _generate_sql_script (cfg : settings) (events : list EventoCreate)
    (filename : pystr) (fs : fsys) : pystr * fsys :=
  let fs1 := fs_mkdir (OUTPUT_FOLDER cfg) fs in
  let sql_path := out_path cfg (lit "InsertSQLEventos-" ++ filename ++ lit ".sql") in
  (sql_path, fs_write sql_path (sql_script_text events) fs1).

(** [_generate_error_file] (lines 307-321) *)
Definition _generate_error_file (cfg : settings) (errors : list pystr)
    (filename : pystr) (fs : fsys) : pystr * fsys :=
  let fs1 := fs_mkdir (OUTPUT_FOLDER cfg) fs in
  let error_path := out_path cfg (lit "ErroresImportant-" ++ filename) in
  (error_path, fs_write error_path (mjoin ((fun e => e ++ [NL]) <$> errors)) fs1).

(** Line 247 of [process_file]:
    [await self._generate_error_file(errors, file_path.name) if errors else None]. *)
Definition write_errors (cfg : settings) (errors : list pystr) (filename : pystr)
    (fs : fsys) : option pystr * fsys :=
  match errors with
  | [] => (None, fs)
  | _ => let '(p, fs') := _generate_error_file cfg errors filename fs in (Some p, fs')
  end.

(** ** The pipeline *)

(** The loop of [process_file] over the useful lines (lines 234-242):
    events and error messages in input order.  [_process_line] catches its
    own exceptions, so the [except] branch of the loop is not taken. *)
Fixpoint process_lines (cfg : settings) (d : db) (st : service) (lines : list pystr)
    : list EventoCreate * list pystr * service :=
  match lines with
  | [] => ([], [], st)
  | line :: lines' =>
      let '(event, st1) := _process_line cfg d st line in
      let '(events, errors, st2) := process_lines cfg d st1 lines' in
      match event with
      | Some e => (e :: events, errors, st2)
      | None => (events, (lit "No se pudo procesar: " ++ line) :: errors, st2)
      end
  end.

(** The dictionary returned by [process_file] ([processing_time] left out). *)
Record file_result := mk_file_result {
  fr_filename : pystr;
  fr_events : list EventoCreate;
  fr_events_count : nat;
  fr_errors_count : nat;
  fr_sql_file : pystr;
  fr_error_file : option pystr
}.

(** [process_file] (lines 224-264) on the trap file [(name, content)]. *)
Definition process_file (cfg : settings) (d : db) (st : service)
    (file : pystr * pystr) (fs : fsys) : file_result * service * fsys :=
  let '(name, content) := file in
  let fs0 := fs_log (IoRead name) fs in
  let useful_lines := _extract_useful_lines content in
  let '(events, errors, st1) := process_lines cfg d st useful_lines in
  let unique_events := _remove_duplicates events in
  let '(sql_file, fs1) := _generate_sql_script cfg unique_events name fs0 in
  let '(error_file, fs2) := write_errors cfg errors name fs1 in
  (mk_file_result name unique_events (length unique_events) (length errors)
     sql_file error_file, st1, fs2).

Fixpoint process_files (cfg : settings) (d : db) (st : service)
    (files : list (pystr * pystr)) (fs : fsys) : list file_result * service * fsys :=
  match files with
  | [] => ([], st, fs)
  | f :: files' =>
      let '(r, st1, fs1) := process_file cfg d st f fs in
      let '(rs, st2, fs2) := process_files cfg d st1 files' fs1 in
      (r :: rs, st2, fs2)
  end.

(** The dictionary returned by [process_all_traps] ([message] and
    [processing_time] left out). *)
Record run_summary := mk_summary {
  success : bool;
  files_processed : nat;
  total_events : nat;
  total_errors : nat;
  sql_files : list pystr;
  error_files : list pystr
}.

(** [process_all_traps] (lines 323-367): [inl tt] is the exception
    re-raised by [_load_ip_list]. *)
Definition process_all_traps (cfg : settings) (d : db) (st : service) (fs : fsys)
    : (unit + run_summary) * service * fsys :=
  let fs0 := fs_log IoLoadIps fs in
  match _load_ip_list cfg d st with
  | inl e => (inl e, st, fs0)
  | inr st1 =>
      let fs1 := fs_log IoGlob fs0 in
      match trap_files fs1 with
      | [] => (inr (mk_summary false 0 0 0 [] []), st1, fs1)
      | tfiles =>
          let '(results, st2, fs2) := process_files cfg d st1 tfiles fs1 in
          (inr (mk_summary true (length tfiles)
                  (sum_list (fr_events_count <$> results))
                  (sum_list (fr_errors_count <$> results))
                  (filter (fun p => p ≠ []) (fr_sql_file <$> results))
                  (omap fr_error_file results)),
           st2, fs2)
      end
  end.

(** ** Resolution seen as a function *)

(** What [_get_objeto_id_by_identifier] returns for [identifier] given the
    catalogue and the current cache. *)
Definition resolve_result (d : db) (cache : gmap pystr Z) (identifier : pystr) : option Z :=
  match identifier with
  | [] => None
  | _ =>
      match cache !! identifier with
      | Some v => Some v
      | None => match query_objeto_id d identifier with inr r => r | inl _ => None end
      end
  end.

(** Every cached entry is what the catalogue query answers for its key,
    whenever the query answers. *)
Definition cache_coherent (d : db) (cache : gmap pystr Z) : Prop :=
  forall k v, cache !! k = Some v -> forall r, query_objeto_id d k = inr r -> r = Some v.

(** [resolve_by_known_ip] as the specification words it: [resolve] applied
    to the first loaded IP that occurs in the line, [None] when there is
    none. *)
Definition resolve_by_known_ip_spec (resolve : pystr -> option Z) (ips : list pystr)
    (line : pystr) : option Z :=
  match list_find (fun ip => py_in ip line = true) ips with
  | Some (_, ip) => resolve ip
  | None => None
  end.

(** The fallback as the code does it: among the loaded IPs that occur in
    the line, in order, the first nonzero result of [resolve] on the IP with
    surrounding whitespace stripped. *)
Definition resolve_by_known_ip_first_nonzero (resolve : pystr -> option Z)
    (ips : list pystr) (line : pystr) : option Z :=
  head (filter (fun v => v <> 0)
          (omap (fun ip => if py_in ip line then resolve (py_strip ip) else None) ips)).

(** What a call may do to the service state: [ip_list] stays, cache
    entries are only added, and a cache holding catalogue answers keeps
    holding catalogue answers. *)
Definition svc_step (d : db) (st st' : service) : Prop :=
  ip_list st' = ip_list st
  /\ identificadores_cache st ⊆ identificadores_cache st'
  /\ (cache_coherent d (identificadores_cache st) ->
      cache_coherent d (identificadores_cache st')).

(** A nonempty string of ASCII digits, and the number it denotes in
    decimal. *)
Definition is_digits (s : pystr) : bool :=
  bool_decide (s <> []) && forallb (fun c => bool_decide (is_Some (digit_val c))) s.

Definition dec_val (s : pystr) : Z :=
  fold_left (fun acc c => 10 * acc + default 0 (digit_val c)) s 0.


(** ** Sample inputs and auxiliary notions *)

(** The first and last characters of a phrase are not whitespace. *)
Definition edges_nonspace (p : pystr) : bool :=
  match head p, last p with
  | Some c, Some z => negb (py_isspace c) && negb (py_isspace z)
  | _, _ => false
  end.

Definition sample_date : pystr := lit "2025-3-1409:15:42.500".

Definition sample_trap_file : pystr :=
  lit "header" ++ [NL] ++ sample_date ++ [TAB]
  ++ lit "Interface Tunnel1, changed state to down " ++ [NL].

Definition sample_useful_line : pystr :=
  sample_date ++ [TAB] ++ lit "Interface Tunnel1, changed state to down".

(** The I/O log of [fs'] continues the I/O log of [fs]. *)
Definition log_extends (fs fs' : fsys) : Prop :=
  exists rest, io_log fs' = io_log fs ++ rest.

(** Two IP-kind catalogue rows, the first mapped to object id 0. *)
Definition two_ip_catalogue : db :=
  DbUp [mk_ident 0 2 (lit "10.0.0.1"); mk_ident 7 2 (lit "10.0.0.2")].

Definition two_ip_service : service := mk_service [lit "10.0.0.1"; lit "10.0.0.2"] ∅.

Definition two_ip_line : pystr :=
  sample_date ++ [TAB] ++ lit "neighbor 10.0.0.1 via 10.0.0.2 is down:".

Definition tunnel1_catalogue : db := DbUp [mk_ident 42 1 (lit "Tunnel1")].

Definition sample_kwargs : evento_kwargs :=
  mk_kwargs 42 1 1 (mk_datetime 2025 3 14 9 15 42) (ObsList []).

(** The tunnel line of the specification's example. *)
Definition claim_c1_line : pystr :=
  sample_date ++ [TAB] ++ lit "Tunnel T1 from X changed state to down".

Definition t1_catalogue : db := DbUp [mk_ident 42 1 (lit "T1")].

(** * Properties *)

(** ** Substrings and [strip] *)

Lemma py_startswith_app (p s : pystr) : py_startswith p s = true <-> exists k, s = p ++ k.
Proof.
  revert s; induction p as [|c p IH]; intros [|d s]; simpl.
  - split; eauto.
  - split; eauto.
  - split; [done|]. intros [k Hk]; done.
  - rewrite andb_true_iff, bool_decide_eq_true, IH. split.
    + intros [-> [k ->]]. eauto.
    + intros [k Hk]. injection Hk as -> ->. eauto.
Qed.

Lemma py_find_eq (sub s : pystr) :
  py_find sub s = if py_startswith sub s then Some 0%nat
                  else match s with [] => None | _ :: s' => S <$> py_find sub s' end.
Proof. destruct s; reflexivity. Qed.

Lemma py_find_is_Some (sub s : pystr) :
  is_Some (py_find sub s) <-> exists a b, s = a ++ sub ++ b.
Proof.
  split.
  - induction s as [|c s IH]; simpl.
    + destruct (py_startswith sub []) eqn:E; [|intros [? ?]; done].
      apply py_startswith_app in E as [k Hk]. intros _. exists [], k. done.
    + destruct (py_startswith sub (c :: s)) eqn:E.
      * apply py_startswith_app in E as [k Hk]. intros _. exists [], k. done.
      * intros Hs. destruct IH as (a & b & ->).
        { destruct (py_find sub s); [eauto|]. destruct Hs; done. }
        exists (c :: a), b. done.
  - intros (a & b & ->). induction a as [|c a IH]; simpl.
    + rewrite py_find_eq.
      assert (py_startswith sub (sub ++ b) = true) as -> by (apply py_startswith_app; eauto).
      eauto.
    + destruct (py_startswith sub (c :: a ++ sub ++ b)); [eauto|].
      destruct IH as [n ->]. eauto.
Qed.

Lemma py_in_app (sub s : pystr) : py_in sub s = true <-> exists a b, s = a ++ sub ++ b.
Proof. unfold py_in. rewrite bool_decide_eq_true. apply py_find_is_Some. Qed.

Lemma py_lstrip_keeps (a p b : pystr) (c : ascii) :
  head p = Some c -> py_isspace c = false ->
  exists a', py_lstrip (a ++ p ++ b) = a' ++ p ++ b.
Proof.
  intros Hh Hc. destruct p as [|c' p]; [done|]. injection Hh as ->.
  induction a as [|x a IH]; simpl.
  - rewrite Hc. exists []. done.
  - destruct (py_isspace x); [done|]. exists (x :: a). done.
Qed.

Lemma py_in_strip (p s : pystr) :
  edges_nonspace p = true -> py_in p s = true -> py_in p (py_strip s) = true.
Proof.
  unfold edges_nonspace. intros He Hin.
  destruct (head p) as [c|] eqn:Hhead; [|done].
  destruct (last p) as [z|] eqn:Hlast; [|done].
  apply andb_true_iff in He as [Hc Hz]. apply negb_true_iff in Hc, Hz.
  apply last_Some in Hlast as [q Hq].
  apply py_in_app in Hin as (a & b & ->).
  unfold py_strip, py_rstrip.
  destruct (py_lstrip_keeps a p b c Hhead Hc) as [a' ->].
  rewrite !reverse_app, <- app_assoc.
  destruct (py_lstrip_keeps (reverse b) (reverse p) (reverse a') z) as [b' ->]; [|done|].
  { rewrite Hq, reverse_app, reverse_singleton. done. }
  apply py_in_app. exists a', (reverse b').
  rewrite !reverse_app, !reverse_involutive, <- !app_assoc. done.
Qed.

Lemma patterns_edges_nonspace :
  Forall (fun p => edges_nonspace p = true) (UP_PATTERNS ++ DOWN_PATTERNS).
Proof.
  apply Forall_forall. intros p Hp.
  assert (Hall : forallb edges_nonspace (UP_PATTERNS ++ DOWN_PATTERNS) = true)
    by (vm_compute; reflexivity).
  rewrite forallb_forall in Hall. apply Hall. by apply list_elem_of_In.
Qed.

(** ** Claim C3: the date parser *)

(** C3. [_extract_date] maps ["2025-3-1409:15:42.500"] to
    2025-03-14 09:15:42, discarding the fractional seconds, and maps
    ["bad-token"] to [None] (the malformed result). *)
Theorem extract_date_examples :
  _extract_date (lit "2025-3-1409:15:42.500") = Some (mk_datetime 2025 3 14 9 15 42)
  /\ _extract_date (lit "bad-token") = None.
Proof. split; vm_compute; reflexivity. Qed.

(** ** Claim C4: useful lines are always classified *)

Lemma useful_line_origin (content line : pystr) :
  line ∈ _extract_useful_lines content ->
  exists raw, is_useful raw = true /\ line = py_strip raw.
Proof.
  unfold _extract_useful_lines. intros Hl.
  apply list_elem_of_fmap in Hl as (raw & -> & Hraw).
  apply list_elem_of_filter in Hraw as [Hu _]. eauto.
Qed.

(** C4. Every line returned by [_extract_useful_lines] (a raw line that
    contains a phrase of [UP_PATTERNS] or [DOWN_PATTERNS], then stripped) is
    classified by [_determine_event_type] as the configured UP or DOWN code,
    hence never as 0 when those codes are nonzero. *)
Theorem useful_lines_classified (cfg : settings) (content line : pystr)
    (Hup : EVENTO_UP cfg <> 0) (Hdown : EVENTO_DOWN cfg <> 0)
    (Hline : line ∈ _extract_useful_lines content) :
  (_determine_event_type cfg line = EVENTO_UP cfg
   \/ _determine_event_type cfg line = EVENTO_DOWN cfg)
  /\ _determine_event_type cfg line <> 0.
Proof.
  destruct (useful_line_origin content line Hline) as (raw & Hu & ->).
  unfold is_useful in Hu. apply existsb_exists in Hu as (p & Hp & Hin).
  assert (Hin' : py_in p (py_strip raw) = true).
  { apply py_in_strip; [|done].
    pose proof patterns_edges_nonspace as Hall. rewrite Forall_forall in Hall.
    apply Hall. by apply list_elem_of_In. }
  unfold _determine_event_type.
  destruct (existsb (fun p0 => py_in p0 (py_strip raw)) UP_PATTERNS) eqn:Eu; [auto|].
  destruct (existsb (fun p0 => py_in p0 (py_strip raw)) DOWN_PATTERNS) eqn:Ed; [auto|].
  exfalso. apply in_app_or in Hp as [Hp|Hp].
  - assert (existsb (fun p0 => py_in p0 (py_strip raw)) UP_PATTERNS = true)
      by (apply existsb_exists; eauto).
    congruence.
  - assert (existsb (fun p0 => py_in p0 (py_strip raw)) DOWN_PATTERNS = true)
      by (apply existsb_exists; eauto).
    congruence.
Qed.

Lemma useful_lines_classified_witness :
  sample_useful_line ∈ _extract_useful_lines sample_trap_file
  /\ ((_determine_event_type default_settings sample_useful_line = EVENTO_UP default_settings
       \/ _determine_event_type default_settings sample_useful_line
          = EVENTO_DOWN default_settings)
      /\ _determine_event_type default_settings sample_useful_line <> 0).
Proof.
  assert (Hl : sample_useful_line ∈ _extract_useful_lines sample_trap_file).
  { assert (E : _extract_useful_lines sample_trap_file = [sample_useful_line])
      by (vm_compute; reflexivity).
    rewrite E. apply list_elem_of_singleton. reflexivity. }
  split; [exact Hl|].
  apply (useful_lines_classified default_settings sample_trap_file sample_useful_line);
    [discriminate|discriminate|exact Hl].
Defined.

(** ** Claim C5: the SQL script *)

Lemma insert_sql_starts (e : EventoCreate) :
  py_startswith (lit "INSERT INTO Evento (ObjetoId, TipoEvento, OperadorRegistroId, Fecha) VALUES (")
    (insert_sql e) = true.
Proof.
  apply py_startswith_app. unfold insert_sql.
  eexists. rewrite app_assoc. reflexivity.
Qed.

(** C5. [_generate_sql_script] writes, at
    [<OUTPUT_FOLDER>/InsertSQLEventos-<filename>.sql], the text
    ["BEGIN TRANSACTION;\n\n"], then one INSERT statement per event in the
    order of the given list, then ["\nCOMMIT;\n-- ROLLBACK;\n"]; for the
    empty list the text is ["BEGIN TRANSACTION;\n\n\nCOMMIT;\n-- ROLLBACK;\n"]
    with no INSERT.  [process_file] passes it the deduplicated events. *)
Theorem generate_sql_script_transaction (cfg : settings) (events : list EventoCreate)
    (filename : pystr) (fs : fsys) :
  (let '(p, fs') := _generate_sql_script cfg events filename fs in
   p = out_path cfg (lit "InsertSQLEventos-" ++ filename ++ lit ".sql")
   /\ files fs' !! p
      = Some (lit "BEGIN TRANSACTION;" ++ [NL; NL]
              ++ mjoin (insert_sql <$> events)
              ++ [NL] ++ lit "COMMIT;" ++ [NL] ++ lit "-- ROLLBACK;" ++ [NL]))
  /\ Forall (fun e => py_startswith
       (lit "INSERT INTO Evento (ObjetoId, TipoEvento, OperadorRegistroId, Fecha) VALUES (")
       (insert_sql e) = true) events
  /\ (let '(p, fs') := _generate_sql_script cfg [] filename fs in
      files fs' !! p
      = Some (lit "BEGIN TRANSACTION;" ++ [NL; NL; NL] ++ lit "COMMIT;" ++ [NL]
              ++ lit "-- ROLLBACK;" ++ [NL])).
Proof.
  split; [|split].
  - simpl. split; [reflexivity|]. apply lookup_insert_eq.
  - apply Forall_forall. intros e _. apply insert_sql_starts.
  - simpl. rewrite lookup_insert_eq. reflexivity.
Qed.

(** ** Claim C8: the error file *)

(** C8. The error-file step of [process_file] ([write_errors], line 247)
    returns [None] and leaves the file system (files, directories and the
    I/O log) untouched when the error list is empty; on a non-empty list it
    writes one line per error, in order, to
    [<OUTPUT_FOLDER>/ErroresImportant-<filename>], returns that path, and
    changes no other file. *)
Theorem write_errors_spec (cfg : settings) (filename : pystr) (fs : fsys) :
  write_errors cfg [] filename fs = (None, fs)
  /\ forall (e : pystr) (es : list pystr),
       let p := out_path cfg (lit "ErroresImportant-" ++ filename) in
       let '(r, fs') := write_errors cfg (e :: es) filename fs in
       r = Some p
       /\ files fs' !! p = Some (mjoin ((fun x => x ++ [NL]) <$> e :: es))
       /\ (forall q, q <> p -> files fs' !! q = files fs !! q).
Proof.
  split; [reflexivity|].
  intros e es p. simpl. split; [reflexivity|]. split.
  - apply lookup_insert_eq.
  - intros q Hq. rewrite lookup_insert_ne; [reflexivity|].
    intros Heq. apply Hq. rewrite <- Heq. reflexivity.
Qed.

(** ** Claim C10: what a lookup changes *)

(** C10. [_get_objeto_id_by_identifier] leaves [ip_list] as it is and
    changes the cache only by inserting [identifier] mapped to the object id
    the catalogue query returned, when the identifier is nonempty and not
    cached yet; an empty identifier, a query that finds no row, or a query
    that raises leaves the cache unchanged, and an entry already in the
    cache is never changed. *)
Theorem get_objeto_id_frame (d : db) (st : service) (identifier : pystr) :
  let '(r, st') := _get_objeto_id_by_identifier d st identifier in
  ip_list st' = ip_list st
  /\ (identificadores_cache st' = identificadores_cache st
      \/ exists v, r = Some v /\ identifier <> []
                   /\ identificadores_cache st !! identifier = None
                   /\ query_objeto_id d identifier = inr (Some v)
                   /\ identificadores_cache st'
                      = <[identifier := v]> (identificadores_cache st))
  /\ (query_objeto_id d identifier = inr None ->
      identificadores_cache st' = identificadores_cache st)
  /\ (d = DbDown -> identificadores_cache st' = identificadores_cache st)
  /\ (identifier = [] -> identificadores_cache st' = identificadores_cache st)
  /\ (forall k v, identificadores_cache st !! k = Some v ->
                  identificadores_cache st' !! k = Some v).
Proof.
  unfold _get_objeto_id_by_identifier.
  destruct identifier as [|c rest] eqn:Hid.
  { repeat split; auto. }
  rewrite <- Hid.
  destruct (identificadores_cache st !! identifier) as [v|] eqn:Hc.
  { repeat split; auto. }
  destruct (query_objeto_id d identifier) as [e|[oid|]] eqn:Hq.
  - repeat split; auto.
  - simpl. split; [reflexivity|]. split.
    { right. exists oid. subst identifier. repeat split; auto; discriminate. }
    split; [intros; discriminate|]. split.
    { intros ->. discriminate. }
    split; [intros; subst; discriminate|].
    intros k v Hk. rewrite lookup_insert_ne; [exact Hk|]. congruence.
  - repeat split; auto.
Qed.

(** ** Claim C2: deduplication *)

Lemma remove_duplicates_loop_props (seen : gset event_key_t) (l : list EventoCreate) :
  let u := remove_duplicates_loop seen l in
  sublist u l
  /\ NoDup (event_key <$> u)
  /\ (forall e, e ∈ l -> event_key e ∈ seen \/ event_key e ∈ event_key <$> u)
  /\ (forall e, e ∈ u -> (event_key e ∉ seen)
        /\ (exists p s, l = p ++ e :: s /\ event_key e ∉ event_key <$> p)).
Proof.
  revert seen. induction l as [|x l IH]; intros seen; simpl.
  { split; [apply sublist_nil|]. split; [constructor|].
    split; intros e He; inversion He. }
  case_bool_decide as Hx.
  - destruct (IH ({[event_key x]} ∪ seen)) as (Hsub & Hnd & Hcov & Hfirst).
    split; [by apply sublist_skip|]. split.
    { rewrite fmap_cons. constructor; [|exact Hnd].
      intros Hin. apply list_elem_of_fmap in Hin as (e & Hke & He).
      destruct (Hfirst e He) as [Hn _]. apply Hn. rewrite <- Hke. set_solver. }
    split.
    { intros e He. apply elem_of_cons in He as [->|He].
      - right. rewrite fmap_cons. apply elem_of_cons. by left.
      - destruct (Hcov e He) as [Hs|Hs].
        + apply elem_of_union in Hs as [Hs|Hs].
          * apply elem_of_singleton in Hs. right. rewrite Hs, fmap_cons.
            apply elem_of_cons. by left.
          * by left.
        + right. rewrite fmap_cons. apply elem_of_cons. by right. }
    intros e He. apply elem_of_cons in He as [->|He].
    + split; [exact Hx|]. exists [], l. split; [reflexivity|]. simpl. set_solver.
    + destruct (Hfirst e He) as (Hn & p & s & -> & Hp).
      split; [set_solver|]. exists (x :: p), s. split; [reflexivity|].
      rewrite fmap_cons. intros Hin. apply elem_of_cons in Hin as [Hin|Hin].
      * apply Hn. rewrite Hin. set_solver.
      * exact (Hp Hin).
  - destruct (IH seen) as (Hsub & Hnd & Hcov & Hfirst).
    split; [by apply sublist_cons|]. split; [exact Hnd|]. split.
    { intros e He. apply elem_of_cons in He as [->|He].
      - left. exact Hx.
      - exact (Hcov e He). }
    intros e He. destruct (Hfirst e He) as (Hn & p & s & -> & Hp).
    split; [exact Hn|]. exists (x :: p), s. split; [reflexivity|].
    rewrite fmap_cons. intros Hin. apply elem_of_cons in Hin as [Hin|Hin].
    + apply Hn. rewrite Hin. exact Hx.
    + exact (Hp Hin).
Qed.

(** C2. [_remove_duplicates] returns a sublist of its input (first-seen
    order kept) in which no two events share the key
    [(objeto_id, tipo_evento, fecha)], which contains the key of every input
    event, and whose every element is the first event of the input with its
    key. *)
Theorem remove_duplicates_spec (events : list EventoCreate) :
  let u := _remove_duplicates events in
  sublist u events
  /\ NoDup (event_key <$> u)
  /\ (forall e, e ∈ events -> event_key e ∈ event_key <$> u)
  /\ (forall e, e ∈ u ->
        exists p s, events = p ++ e :: s /\ event_key e ∉ event_key <$> p).
Proof.
  unfold _remove_duplicates.
  destruct (remove_duplicates_loop_props ∅ events) as (Hsub & Hnd & Hcov & Hfirst).
  split; [exact Hsub|]. split; [exact Hnd|]. split.
  - intros e He. destruct (Hcov e He) as [Hs|Hs]; [set_solver|exact Hs].
  - intros e He. exact (proj2 (Hfirst e He)).
Qed.

(** ** Claim C7: a failed catalogue load ends the run first *)

Lemma log_extends_trans (fs1 fs2 fs3 : fsys) :
  log_extends fs1 fs2 -> log_extends fs2 fs3 -> log_extends fs1 fs3.
Proof.
  intros [r1 H1] [r2 H2]. exists (r1 ++ r2). rewrite H2, H1, app_assoc. reflexivity.
Qed.

Lemma fs_log_extends (a : io_action) (fs : fsys) : log_extends fs (fs_log a fs).
Proof. exists [a]. reflexivity. Qed.

Lemma fs_mkdir_log (dir : pystr) (fs : fsys) : io_log (fs_mkdir dir fs) = io_log fs ++ [IoMkdir dir].
Proof. reflexivity. Qed.

Lemma fs_write_log (path content : pystr) (fs : fsys) :
  io_log (fs_write path content fs) = io_log fs ++ [IoWrite path].
Proof. reflexivity. Qed.

Lemma generate_sql_script_log (cfg : settings) (events : list EventoCreate) (name : pystr)
    (fs : fsys) :
  log_extends fs (_generate_sql_script cfg events name fs).2.
Proof.
  unfold _generate_sql_script. simpl. eexists.
  rewrite fs_write_log, fs_mkdir_log, <- app_assoc. reflexivity.
Qed.

Lemma write_errors_log (cfg : settings) (errors : list pystr) (name : pystr) (fs : fsys) :
  log_extends fs (write_errors cfg errors name fs).2.
Proof.
  destruct errors as [|e es]; simpl.
  - exists []. rewrite app_nil_r. reflexivity.
  - eexists. rewrite fs_write_log, fs_mkdir_log, <- app_assoc. reflexivity.
Qed.

Lemma process_file_log (cfg : settings) (d : db) (st : service) (f : pystr * pystr)
    (fs : fsys) :
  log_extends fs (process_file cfg d st f fs).2.
Proof.
  destruct f as [name content]. unfold process_file.
  destruct (process_lines cfg d st (_extract_useful_lines content)) as [[events errors] st1].
  pose proof (generate_sql_script_log cfg (_remove_duplicates events) name
                (fs_log (IoRead name) fs)) as H1.
  destruct (_generate_sql_script cfg (_remove_duplicates events) name
              (fs_log (IoRead name) fs)) as [sql_file fs1].
  pose proof (write_errors_log cfg errors name fs1) as H2.
  destruct (write_errors cfg errors name fs1) as [error_file fs2].
  simpl in H1, H2 |- *.
  exact (log_extends_trans _ _ _ (fs_log_extends _ _) (log_extends_trans _ _ _ H1 H2)).
Qed.

Lemma process_files_log (cfg : settings) (d : db) (st : service)
    (tfiles : list (pystr * pystr)) (fs : fsys) :
  log_extends fs (process_files cfg d st tfiles fs).2.
Proof.
  revert st fs. induction tfiles as [|f tfiles IH]; intros st fs; simpl.
  - exists []. rewrite app_nil_r. reflexivity.
  - pose proof (process_file_log cfg d st f fs) as Hf.
    destruct (process_file cfg d st f fs) as [[r st1] fs1].
    pose proof (IH st1 fs1) as Hr.
    destruct (process_files cfg d st1 tfiles fs1) as [[rs st2] fs2].
    exact (log_extends_trans _ _ _ Hf Hr).
Qed.

(** C7. The catalogue query is the first I/O action of
    [process_all_traps]; when [_load_ip_list] raises, the exception is the
    result of the run, the service state is unchanged, and the file system
    is left as it was apart from that one query in the log: no trap file is
    globbed, read or written. *)
Theorem process_all_traps_load_failure (cfg : settings) (d : db) (st : service)
    (fs : fsys) (e : unit) (Hload : _load_ip_list cfg d st = inl e) :
  process_all_traps cfg d st fs = (inl e, st, fs_log IoLoadIps fs)
  /\ io_log (fs_log IoLoadIps fs) = io_log fs ++ [IoLoadIps]
  /\ trap_files (fs_log IoLoadIps fs) = trap_files fs
  /\ dirs (fs_log IoLoadIps fs) = dirs fs
  /\ files (fs_log IoLoadIps fs) = files fs
  /\ (forall d' st', exists rest,
        io_log (process_all_traps cfg d' st' fs).2 = io_log fs ++ IoLoadIps :: rest).
Proof.
  split; [unfold process_all_traps; rewrite Hload; reflexivity|].
  split; [reflexivity|]. split; [reflexivity|]. split; [reflexivity|].
  split; [reflexivity|].
  intros d' st'. unfold process_all_traps.
  destruct (_load_ip_list cfg d' st') as [e'|st1].
  - exists []. reflexivity.
  - replace (trap_files (fs_log IoGlob (fs_log IoLoadIps fs))) with (trap_files fs)
      by reflexivity.
    destruct (trap_files fs) as [|f tfiles] eqn:Ht.
    + exists [IoGlob]. simpl. rewrite <- app_assoc. reflexivity.
    + pose proof (process_files_log cfg d' st1 (f :: tfiles)
                    (fs_log IoGlob (fs_log IoLoadIps fs))) as [rest Hr].
      cbn -[process_files fs_log].
      destruct (process_files cfg d' st1 (f :: tfiles)
                  (fs_log IoGlob (fs_log IoLoadIps fs))) as [[rs st2] fs2].
      simpl in Hr |- *. exists (IoGlob :: rest). rewrite Hr, <- !app_assoc. reflexivity.
Qed.

Lemma process_all_traps_load_failure_witness :
  _load_ip_list default_settings DbDown init_service = inl tt
  /\ process_all_traps default_settings DbDown init_service (mk_fsys [] ∅ ∅ [])
     = (inl tt, init_service, fs_log IoLoadIps (mk_fsys [] ∅ ∅ []))
  /\ io_log (fs_log IoLoadIps (mk_fsys [] ∅ ∅ [])) = [] ++ [IoLoadIps]
  /\ trap_files (fs_log IoLoadIps (mk_fsys [] ∅ ∅ [])) = []
  /\ dirs (fs_log IoLoadIps (mk_fsys [] ∅ ∅ [])) = ∅
  /\ files (fs_log IoLoadIps (mk_fsys [] ∅ ∅ [])) = ∅
  /\ (forall d' st', exists rest,
        io_log (process_all_traps default_settings d' st' (mk_fsys [] ∅ ∅ [])).2
        = [] ++ IoLoadIps :: rest).
Proof.
  split; [reflexivity|].
  exact (process_all_traps_load_failure default_settings DbDown init_service
           (mk_fsys [] ∅ ∅ []) tt eq_refl).
Defined.

(** ** Claim C6: the IP fallback *)

Lemma get_objeto_id_pure (d : db) (st : service) (identifier : pystr) :
  cache_coherent d (identificadores_cache st) ->
  let '(r, st') := _get_objeto_id_by_identifier d st identifier in
  r = resolve_result d (identificadores_cache st) identifier
  /\ ip_list st' = ip_list st
  /\ cache_coherent d (identificadores_cache st')
  /\ (forall g, resolve_result d (identificadores_cache st') g
                = resolve_result d (identificadores_cache st) g).
Proof.
  intros Hcoh. unfold _get_objeto_id_by_identifier.
  destruct identifier as [|c rest] eqn:Hid; [repeat split; auto|].
  rewrite <- Hid.
  destruct (identificadores_cache st !! identifier) as [v|] eqn:Hc.
  { repeat split; auto. unfold resolve_result. subst identifier. rewrite Hc. reflexivity. }
  destruct (query_objeto_id d identifier) as [e|[oid|]] eqn:Hq.
  - repeat split; auto. unfold resolve_result. subst identifier. rewrite Hc, Hq. reflexivity.
  - simpl. split.
    { unfold resolve_result. subst identifier. rewrite Hc, Hq. reflexivity. }
    split; [reflexivity|]. split.
    + intros k v Hk r Hr. destruct (decide (k = identifier)) as [->|Hne].
      * rewrite lookup_insert_eq in Hk. injection Hk as <-. congruence.
      * rewrite lookup_insert_ne in Hk by congruence. exact (Hcoh k v Hk r Hr).
    + intros g. unfold resolve_result. destruct g as [|c' g']; [reflexivity|].
      destruct (decide ((c' :: g') = identifier)) as [Heq|Hne].
      * rewrite Heq, lookup_insert_eq, Hc, Hq. subst identifier. reflexivity.
      * rewrite lookup_insert_ne by congruence. reflexivity.
  - repeat split; auto. unfold resolve_result. subst identifier. rewrite Hc, Hq. reflexivity.
Qed.

Lemma find_by_ip_loop_pure (d : db) (line : pystr) (ips : list pystr) :
  forall (st : service) (R : pystr -> option Z),
  cache_coherent d (identificadores_cache st) ->
  (forall g, resolve_result d (identificadores_cache st) g = R g) ->
  (find_by_ip_loop d line ips st).1 = resolve_by_known_ip_first_nonzero R ips line.
Proof.
  induction ips as [|ip ips IH]; intros st R Hcoh HR; [reflexivity|].
  unfold resolve_by_known_ip_first_nonzero. simpl.
  destruct (py_in ip line) eqn:Hin.
  - pose proof (get_objeto_id_pure d st (py_strip ip) Hcoh) as Hp.
    destruct (_get_objeto_id_by_identifier d st (py_strip ip)) as [r st1].
    destruct Hp as (-> & _ & Hcoh1 & Hsame).
    rewrite HR.
    assert (IH' : (find_by_ip_loop d line ips st1).1
                  = resolve_by_known_ip_first_nonzero R ips line).
    { apply IH; [exact Hcoh1|]. intros g. rewrite Hsame. apply HR. }
    destruct (R (py_strip ip)) as [v|] eqn:Hv; simpl.
    + rewrite filter_cons. destruct (v =? 0) eqn:Hz; simpl.
      * apply Z.eqb_eq in Hz. subst v.
        rewrite decide_False by lia. exact IH'.
      * apply Z.eqb_neq in Hz. rewrite decide_True by exact Hz. reflexivity.
    + exact IH'.
  - apply IH; assumption.
Qed.

(** C6 (as the code does it).  When every cached entry agrees with the
    catalogue, [_find_by_ip] returns, among the loaded IPs occurring as a
    substring of the line and in list order, the first nonzero object id
    that resolution gives for the IP with surrounding whitespace stripped;
    [None] when no such IP yields one. *)
Theorem find_by_ip_first_nonzero (d : db) (st : service) (line : pystr)
    (Hcoh : cache_coherent d (identificadores_cache st)) :
  (_find_by_ip d st line).1
  = resolve_by_known_ip_first_nonzero (resolve_result d (identificadores_cache st))
      (ip_list st) line.
Proof. apply find_by_ip_loop_pure; auto. Qed.

Lemma find_by_ip_first_nonzero_witness :
  cache_coherent two_ip_catalogue (identificadores_cache two_ip_service)
  /\ (_find_by_ip two_ip_catalogue two_ip_service two_ip_line).1
     = resolve_by_known_ip_first_nonzero
         (resolve_result two_ip_catalogue (identificadores_cache two_ip_service))
         (ip_list two_ip_service) two_ip_line.
Proof.
  assert (Hcoh : cache_coherent two_ip_catalogue (identificadores_cache two_ip_service)).
  { intros k v Hk. unfold two_ip_service in Hk. simpl in Hk.
    rewrite lookup_empty in Hk. discriminate. }
  split; [exact Hcoh|].
  exact (find_by_ip_first_nonzero two_ip_catalogue two_ip_service two_ip_line Hcoh).
Defined.

(** C6 as stated fails: with the catalogue loaded as [two_ip_service]
    (both rows are of the IP kind), the first loaded IP in the line resolves
    to object id 0, which the loop skips, and [_find_by_ip] returns the id
    of the second IP instead of the first IP's resolution. *)
Lemma find_by_ip_not_first_match :
  _load_ip_list default_settings two_ip_catalogue init_service = inr two_ip_service
  /\ (_find_by_ip two_ip_catalogue two_ip_service two_ip_line).1 = Some 7
  /\ resolve_by_known_ip_spec
       (resolve_result two_ip_catalogue (identificadores_cache two_ip_service))
       (ip_list two_ip_service) two_ip_line = Some 0.
Proof. split; [|split]; vm_compute; reflexivity. Qed.

(** ** Claims C1 and C9: the events the extractor builds *)

Lemma process_line_validates (cfg : settings) (d : db) (st : service) (line : pystr) :
  (_process_line cfg d st line).1 = (line_kwargs cfg d st line).1 ≫= EventoCreate_validate.
Proof.
  unfold _process_line, line_kwargs, _process_tunnel_line, _process_object_name_line.
  destruct (bool_decide _); [reflexivity|].
  destruct (py_in (lit "Tunnel") line).
  - destruct (tunnel_line_kwargs _ _ _ _ _). reflexivity.
  - destruct (py_in (lit "Object_Name=") line); [|reflexivity].
    destruct (object_name_line_kwargs _ _ _ _ _). reflexivity.
Qed.

Lemma determine_event_type_cases (cfg : settings) (line : pystr) :
  _determine_event_type cfg line = EVENTO_UP cfg
  \/ _determine_event_type cfg line = EVENTO_DOWN cfg
  \/ _determine_event_type cfg line = 0.
Proof.
  unfold _determine_event_type.
  destruct (existsb _ UP_PATTERNS); [auto|]. destruct (existsb _ DOWN_PATTERNS); auto.
Qed.

Lemma event_kwargs_props (cfg : settings) (line : pystr) (parts : list pystr) (oid : Z)
    (kw : evento_kwargs) :
  event_kwargs cfg line parts oid = Some kw ->
  kw_ObjetoId kw = oid
  /\ (kw_TipoEvento kw = EVENTO_UP cfg \/ kw_TipoEvento kw = EVENTO_DOWN cfg)
  /\ kw_TipoEvento kw <> 0
  /\ kw_OperadorRegistroId kw = DEFAULT_OPERATOR_ID cfg
  /\ kw_Observaciones kw = ObsList [].
Proof.
  unfold event_kwargs. destruct (py_get parts 0 ≫= _extract_date) as [fecha|]; [|done].
  simpl. destruct (_determine_event_type cfg line =? 0) eqn:Hz; [done|].
  intros Hkw. injection Hkw as <-. simpl. apply Z.eqb_neq in Hz.
  destruct (determine_event_type_cases cfg line) as [H|[H|H]]; [| |contradiction].
  - repeat split; auto.
  - repeat split; auto.
Qed.

Lemma tunnel_line_kwargs_some (cfg : settings) (d : db) (st : service) (line : pystr)
    (parts : list pystr) (kw : evento_kwargs) :
  (tunnel_line_kwargs cfg d st line parts).1 = Some kw ->
  exists oid, oid <> 0 /\ event_kwargs cfg line parts oid = Some kw.
Proof.
  unfold tunnel_line_kwargs. destruct (tunnel_marca line) as [marca|]; [|done].
  destruct (_get_objeto_id_by_identifier d st marca) as [r st1].
  destruct (if truthy r then (r, st1) else _find_by_ip d st1 line) as [[oid|] st2]; [|done].
  simpl. destruct (negb (oid =? 0)) eqn:Hz; [|done].
  intros Hkw. exists oid. split; [|exact Hkw].
  apply negb_true_iff, Z.eqb_neq in Hz. exact Hz.
Qed.

Lemma object_name_line_kwargs_some (cfg : settings) (d : db) (st : service) (line : pystr)
    (parts : list pystr) (kw : evento_kwargs) :
  (object_name_line_kwargs cfg d st line parts).1 = Some kw ->
  exists oid, oid <> 0 /\ event_kwargs cfg line parts oid = Some kw.
Proof.
  unfold object_name_line_kwargs. destruct (object_name_marca line) as [marca|]; [|done].
  destruct (_get_objeto_id_by_identifier d st marca) as [[oid|] st1]; [|done].
  simpl. destruct (negb (oid =? 0)) eqn:Hz; [|done].
  intros Hkw. exists oid. split; [|exact Hkw].
  apply negb_true_iff, Z.eqb_neq in Hz. exact Hz.
Qed.

(** C9.  Every [EventoCreate] call made by [_process_line] (tunnel path or
    [Object_Name=] path) receives a nonzero [ObjetoId] (a catalogue row
    with object id 0 is never used: it counts as unresolved), a
    [TipoEvento] equal to the configured UP or DOWN code and never 0, and
    [OperadorRegistroId] equal to [DEFAULT_OPERATOR_ID]; the event the line
    yields, if any, is the one validated from these arguments. *)
Theorem line_kwargs_invariants (cfg : settings) (d : db) (st : service) (line : pystr)
    (kw : evento_kwargs) (Hkw : (line_kwargs cfg d st line).1 = Some kw) :
  kw_ObjetoId kw <> 0
  /\ (kw_TipoEvento kw = EVENTO_UP cfg \/ kw_TipoEvento kw = EVENTO_DOWN cfg)
  /\ kw_TipoEvento kw <> 0
  /\ kw_OperadorRegistroId kw = DEFAULT_OPERATOR_ID cfg
  /\ (_process_line cfg d st line).1 = EventoCreate_validate kw.
Proof.
  assert (Hex : exists oid parts, oid <> 0 /\ event_kwargs cfg line parts oid = Some kw).
  { revert Hkw. unfold line_kwargs.
    destruct (bool_decide _); [done|].
    destruct (py_in (lit "Tunnel") line).
    - intros H. destruct (tunnel_line_kwargs_some _ _ _ _ _ _ H) as (oid & ? & ?). eauto.
    - destruct (py_in (lit "Object_Name=") line); [|done].
      intros H. destruct (object_name_line_kwargs_some _ _ _ _ _ _ H) as (oid & ? & ?).
      eauto. }
  destruct Hex as (oid & parts & Hoid & He).
  destruct (event_kwargs_props _ _ _ _ _ He) as (Hid & Htipo & Hnz & Hop & _).
  split; [congruence|]. split; [exact Htipo|]. split; [exact Hnz|]. split; [exact Hop|].
  rewrite process_line_validates, Hkw. reflexivity.
Qed.

Lemma line_kwargs_invariants_witness :
  (line_kwargs default_settings tunnel1_catalogue init_service sample_useful_line).1
    = Some sample_kwargs
  /\ (kw_ObjetoId sample_kwargs <> 0
      /\ (kw_TipoEvento sample_kwargs = EVENTO_UP default_settings
          \/ kw_TipoEvento sample_kwargs = EVENTO_DOWN default_settings)
      /\ kw_TipoEvento sample_kwargs <> 0
      /\ kw_OperadorRegistroId sample_kwargs = DEFAULT_OPERATOR_ID default_settings
      /\ (_process_line default_settings tunnel1_catalogue init_service
            sample_useful_line).1 = EventoCreate_validate sample_kwargs).
Proof.
  assert (H : (line_kwargs default_settings tunnel1_catalogue init_service
                 sample_useful_line).1 = Some sample_kwargs)
    by (vm_compute; reflexivity).
  split; [exact H|].
  exact (line_kwargs_invariants default_settings tunnel1_catalogue init_service
           sample_useful_line sample_kwargs H).
Defined.

(** Every [EventoCreate] call of the extractor passes [Observaciones=[]],
    which the [Optional[str]] field rejects: no line ever yields an event. *)
Lemma process_line_never_event (cfg : settings) (d : db) (st : service) (line : pystr) :
  (_process_line cfg d st line).1 = None.
Proof.
  rewrite process_line_validates.
  destruct ((line_kwargs cfg d st line).1) as [kw|] eqn:Hkw; [|reflexivity].
  assert (Hex : exists oid parts, event_kwargs cfg line parts oid = Some kw).
  { revert Hkw. unfold line_kwargs.
    destruct (bool_decide _); [done|].
    destruct (py_in (lit "Tunnel") line).
    - intros H. destruct (tunnel_line_kwargs_some _ _ _ _ _ _ H) as (oid & ? & ?). eauto.
    - destruct (py_in (lit "Object_Name=") line); [|done].
      intros H. destruct (object_name_line_kwargs_some _ _ _ _ _ _ H) as (oid & ? & ?).
      eauto. }
  destruct Hex as (oid & parts & He).
  destruct (event_kwargs_props _ _ _ _ _ He) as (_ & _ & _ & _ & Hobs).
  simpl. unfold EventoCreate_validate. rewrite Hobs. reflexivity.
Qed.

Lemma py_index_in (s sub : pystr) (i : Z) : py_index s sub = Some i -> py_in sub s = true.
Proof.
  unfold py_index, py_in. intros H. apply bool_decide_eq_true.
  destruct (py_find sub s); [eauto|discriminate].
Qed.

(** C1 (as the code does it).  For a line whose tab-separated field 0 is a
    valid date token, that contains ["changed state to down"], no phrase of
    [UP_PATTERNS] and neither ["FULL to DOWN"] nor ["LOADING to FULL"], and
    that contains ["Tunnel"] at index [i] and ["changed"] at index [j]
    (first occurrences), the identifier looked up is
    [line[i:j-2].strip()] — it starts with the word [Tunnel] —, and when
    its resolution gives a nonzero object id [oid], the extractor calls
    [EventoCreate] with [ObjetoId = oid], [TipoEvento = EVENTO_DOWN] and the
    default operator id. *)
Theorem tunnel_changed_down_kwargs (cfg : settings) (d : db) (st : service)
    (line date : pystr) (rest : list pystr) (i j oid : Z) (dt : datetime)
    (Hparts : py_split TAB line = date :: rest) (Hrest : rest <> [])
    (Hfull : py_in (lit "FULL to DOWN") line = false)
    (Hloading : py_in (lit "LOADING to FULL") line = false)
    (Hdown : py_in (lit "changed state to down") line = true)
    (Hnoup : existsb (fun p => py_in p line) UP_PATTERNS = false)
    (Hi : py_index line (lit "Tunnel") = Some i)
    (Hj : py_index line (lit "changed") = Some j)
    (Hres : (_get_objeto_id_by_identifier d st (py_strip (py_slice line i (j - 2)))).1
            = Some oid)
    (Hoid : oid <> 0) (Hdate : _extract_date date = Some dt)
    (Hcfg : EVENTO_DOWN cfg <> 0) :
  tunnel_marca line = Some (py_strip (py_slice line i (j - 2)))
  /\ (line_kwargs cfg d st line).1
     = Some (mk_kwargs oid (EVENTO_DOWN cfg) (DEFAULT_OPERATOR_ID cfg) dt (ObsList [])).
Proof.
  assert (Hmarca : tunnel_marca line = Some (py_strip (py_slice line i (j - 2)))).
  { unfold tunnel_marca. rewrite Hfull, Hloading, Hdown, Hi, Hj. reflexivity. }
  split; [exact Hmarca|].
  unfold line_kwargs. rewrite Hparts.
  rewrite bool_decide_eq_false_2
    by (destruct rest; [contradiction|simpl; lia]).
  rewrite (py_index_in _ _ _ Hi).
  unfold tunnel_line_kwargs. rewrite Hmarca.
  destruct (_get_objeto_id_by_identifier d st (py_strip (py_slice line i (j - 2))))
    as [r st1]. simpl in Hres. subst r.
  assert (Ht : truthy (Some oid) = true)
    by (simpl; apply negb_true_iff, Z.eqb_neq; exact Hoid).
  rewrite Ht. cbv beta iota. rewrite Ht.
  unfold event_kwargs. simpl. rewrite Hdate. simpl.
  assert (Hty : _determine_event_type cfg line = EVENTO_DOWN cfg).
  { unfold _determine_event_type. rewrite Hnoup.
    replace (existsb (fun p => py_in p line) DOWN_PATTERNS) with true; [reflexivity|].
    symmetry. apply existsb_exists. exists (lit "changed state to down").
    split; [simpl; tauto|exact Hdown]. }
  rewrite Hty. apply Z.eqb_neq in Hcfg. rewrite Hcfg. reflexivity.
Qed.

Lemma tunnel_changed_down_kwargs_witness :
  py_split TAB sample_useful_line = [sample_date; lit "Interface Tunnel1, changed state to down"]
  /\ tunnel_marca sample_useful_line = Some (lit "Tunnel1")
  /\ (tunnel_marca sample_useful_line = Some (py_strip (py_slice sample_useful_line 32 (41 - 2)))
      /\ (line_kwargs default_settings tunnel1_catalogue init_service sample_useful_line).1
         = Some (mk_kwargs 42 (EVENTO_DOWN default_settings)
                   (DEFAULT_OPERATOR_ID default_settings)
                   (mk_datetime 2025 3 14 9 15 42) (ObsList []))).
Proof.
  split; [vm_compute; reflexivity|]. split; [vm_compute; reflexivity|].
  apply (tunnel_changed_down_kwargs default_settings tunnel1_catalogue init_service
           sample_useful_line sample_date [lit "Interface Tunnel1, changed state to down"]
           32 41 42 (mk_datetime 2025 3 14 9 15 42));
    first [vm_compute; reflexivity | discriminate].
Defined.

(** C1 as stated fails: with the catalogue row ["T1"] mapped to 42 (and no
    IP row, so the loaded IP list is empty), the identifier looked up is
    ["Tunnel T1 from"], which no catalogue value contains; the line yields
    no event, and fails before any [EventoCreate] call. *)
Lemma tunnel_t1_not_resolved :
  _load_ip_list default_settings t1_catalogue init_service = inr init_service
  /\ tunnel_marca claim_c1_line = Some (lit "Tunnel T1 from")
  /\ (_get_objeto_id_by_identifier t1_catalogue init_service (lit "Tunnel T1 from")).1 = None
  /\ (line_kwargs default_settings t1_catalogue init_service claim_c1_line).1 = None
  /\ (_process_line default_settings t1_catalogue init_service claim_c1_line).1 = None.
Proof. repeat split; vm_compute; reflexivity. Qed.

(** * Further properties of the service *)

(** ** The per-line loop of [process_file] *)

Lemma process_lines_counts (cfg : settings) (d : db) (st : service) (lines : list pystr) :
  let '(events, errors, _) := process_lines cfg d st lines in
  (length events + length errors = length lines)%nat.
Proof.
  revert st. induction lines as [|line lines IH]; intros st; simpl; [reflexivity|].
  destruct (_process_line cfg d st line) as [ev st1].
  specialize (IH st1).
  destruct (process_lines cfg d st1 lines) as [[events errors] st2].
  destruct ev; simpl; lia.
Qed.

(** Every useful line gives exactly one entry: an event or an error
    message. *)
Theorem process_lines_one_entry_per_line (cfg : settings) (d : db) (st : service)
    (lines : list pystr) :
  let '(events, errors, _) := process_lines cfg d st lines in
  (length events + length errors = length lines)%nat.
Proof. apply process_lines_counts. Qed.

Lemma process_lines_all_errors (cfg : settings) (d : db) (st : service) (lines : list pystr) :
  let '(events, errors, _) := process_lines cfg d st lines in
  events = [] /\ errors = (fun line => lit "No se pudo procesar: " ++ line) <$> lines.
Proof.
  revert st. induction lines as [|line lines IH]; intros st; simpl; [done|].
  pose proof (process_line_never_event cfg d st line) as Hn.
  destruct (_process_line cfg d st line) as [ev st1]. simpl in Hn. subst ev.
  specialize (IH st1).
  destruct (process_lines cfg d st1 lines) as [[events errors] st2].
  destruct IH as [-> ->]. done.
Qed.

Lemma process_file_shape (cfg : settings) (d : db) (st : service)
    (name content : pystr) (fs : fsys) :
  let '(r, _, fs') := process_file cfg d st (name, content) fs in
  fr_events r = [] /\ fr_events_count r = 0%nat
  /\ fr_errors_count r = length (_extract_useful_lines content)
  /\ (fr_error_file r = None <-> _extract_useful_lines content = [])
  /\ (forall e es, _extract_useful_lines content = e :: es ->
        files fs' !! out_path cfg (lit "ErroresImportant-" ++ name)
        = Some (mjoin ((fun x => x ++ [NL]) <$>
                 ((fun line => lit "No se pudo procesar: " ++ line)
                    <$> _extract_useful_lines content))))
  /\ (forall p, fr_error_file r = Some p -> p = out_path cfg (lit "ErroresImportant-" ++ name)).
Proof.
  unfold process_file.
  pose proof (process_lines_all_errors cfg d st (_extract_useful_lines content)) as Hl.
  destruct (process_lines cfg d st (_extract_useful_lines content))
    as [[events errors] st1].
  destruct Hl as [-> ->].
  remember (_extract_useful_lines content) as U eqn:HU.
  destruct (_generate_sql_script cfg (_remove_duplicates []) name (fs_log (IoRead name) fs))
    as [sql_file fs1].
  destruct (write_errors cfg ((fun line => lit "No se pudo procesar: " ++ line) <$> U) name fs1)
    as [error_file fs2] eqn:Hwe.
  cbn [fr_events fr_events_count fr_errors_count fr_error_file].
  rewrite length_fmap.
  destruct U as [|u us].
  - cbn in Hwe. injection Hwe as <- <-. repeat split; auto; intros; discriminate.
  - unfold write_errors, _generate_error_file in Hwe. rewrite fmap_cons in Hwe.
    injection Hwe as <- <-. repeat split; auto; try discriminate.
    + intros e es _. apply lookup_insert_eq.
    + intros p' [= <-]. reflexivity.
Qed.


(** ** [process_all_traps]: the summary *)



Lemma process_files_results (cfg : settings) (d : db) (st : service)
    (tfiles : list (pystr * pystr)) (fs : fsys) :
  let '(results, _, _) := process_files cfg d st tfiles fs in
  fr_sql_file <$> results
  = (fun f => out_path cfg (lit "InsertSQLEventos-" ++ f.1 ++ lit ".sql")) <$> tfiles
  /\ fr_filename <$> results = fst <$> tfiles
  /\ fr_events_count <$> results = (fun _ => 0%nat) <$> tfiles
  /\ fr_errors_count <$> results = (fun f => length (_extract_useful_lines f.2)) <$> tfiles.
Proof.
  revert st fs. induction tfiles as [|[name content] tfiles IH]; intros st fs; [done|].
  cbn [process_files].
  pose proof (process_file_shape cfg d st name content fs) as Hne.
  destruct (process_file cfg d st (name, content) fs) as [[r st1] fs1] eqn:Hpf.
  specialize (IH st1 fs1).
  destruct (process_files cfg d st1 tfiles fs1) as [[rs st2] fs2].
  destruct IH as (H1 & H2 & H3 & H4). destruct Hne as (_ & Hc & He & _ & _ & _).
  assert (Hs : fr_sql_file r = out_path cfg (lit "InsertSQLEventos-" ++ name ++ lit ".sql")
               /\ fr_filename r = name).
  { unfold process_file in Hpf.
    destruct (process_lines cfg d st (_extract_useful_lines content)) as [[evs errs] st'].
    unfold _generate_sql_script in Hpf. cbv beta iota zeta in Hpf.
    destruct (write_errors _ _ _ _) as [ef fs'].
    injection Hpf as <- _ _. split; reflexivity. }
  destruct Hs as [Hs Hn].
  rewrite !fmap_cons, H1, H2, H3, H4, Hs, Hn, Hc, He.
  split; [reflexivity|]. split; [reflexivity|]. split; reflexivity.
Qed.

Lemma out_path_nonempty (cfg : settings) (name : pystr) : out_path cfg name <> [].
Proof. unfold out_path. destruct (OUTPUT_FOLDER cfg); discriminate. Qed.

(** When the catalogue loads and there are trap files, the run reports
    [success = true], one processed file and one SQL script path per trap
    file, in glob order ([<OUTPUT_FOLDER>/InsertSQLEventos-<name>.sql]), at
    most one error file per trap file, zero events in total, and as many
    errors in total as there are useful lines in all the files. *)
Theorem process_all_traps_summary (cfg : settings) (d : db) (st st1 : service) (fs : fsys)
    (Hload : _load_ip_list cfg d st = inr st1) (Hsome : trap_files fs <> []) :
  match (process_all_traps cfg d st fs).1.1 with
  | inr s =>
      success s = true /\ files_processed s = length (trap_files fs)
      /\ sql_files s
         = (fun f => out_path cfg (lit "InsertSQLEventos-" ++ f.1 ++ lit ".sql"))
             <$> trap_files fs
      /\ (length (error_files s) <= length (trap_files fs))%nat
      /\ total_events s = 0%nat
      /\ total_errors s
         = sum_list ((fun f => length (_extract_useful_lines f.2)) <$> trap_files fs)
  | inl _ => False
  end.
Proof.
  unfold process_all_traps. rewrite Hload.
  replace (trap_files (fs_log IoGlob (fs_log IoLoadIps fs))) with (trap_files fs)
    by reflexivity.
  destruct (trap_files fs) as [|f tfiles] eqn:Ht; [contradiction|].
  pose proof (process_files_results cfg d st1 (f :: tfiles)
                (fs_log IoGlob (fs_log IoLoadIps fs))) as Hr.
  cbv beta iota zeta.
  destruct (process_files cfg d st1 (f :: tfiles) (fs_log IoGlob (fs_log IoLoadIps fs)))
    as [[results st2] fs2].
  destruct Hr as (H1 & H2 & H3 & H4). cbn [success files_processed sql_files error_files
    total_events total_errors fst snd].
  split; [reflexivity|]. split; [reflexivity|]. split.
  { rewrite H1. generalize (f :: tfiles). clear. intros l. induction l as [|g l IH]; [reflexivity|].
    rewrite fmap_cons, filter_cons_True, IH; [reflexivity|]. apply out_path_nonempty. }
  split.
  { assert (Hlen : length results = length (f :: tfiles)).
    { rewrite <- (length_fmap fst (f :: tfiles)), <- H2, length_fmap. reflexivity. }
    rewrite <- Hlen. clear. induction results as [|r rs IH]; [simpl; lia|].
    change (omap fr_error_file (r :: rs))
      with (match fr_error_file r with
            | Some y => y :: omap fr_error_file rs
            | None => omap fr_error_file rs end).
    destruct (fr_error_file r); simpl; lia. }
  split; [|rewrite H4; reflexivity].
  rewrite H3. clear. generalize (f :: tfiles). intros l.
  induction l as [|g l IH]; [reflexivity|]. rewrite fmap_cons. simpl. exact IH.
Qed.

Lemma process_all_traps_summary_witness :
  _load_ip_list default_settings (DbUp []) init_service = inr init_service
  /\ trap_files (mk_fsys [(lit "a.txt", sample_trap_file)] ∅ ∅ []) <> []
  /\ match (process_all_traps default_settings (DbUp []) init_service
              (mk_fsys [(lit "a.txt", sample_trap_file)] ∅ ∅ [])).1.1 with
     | inr s =>
         success s = true
         /\ files_processed s = length (trap_files (mk_fsys [(lit "a.txt", sample_trap_file)] ∅ ∅ []))
         /\ sql_files s
            = (fun f => out_path default_settings (lit "InsertSQLEventos-" ++ f.1 ++ lit ".sql"))
                <$> trap_files (mk_fsys [(lit "a.txt", sample_trap_file)] ∅ ∅ [])
         /\ (length (error_files s)
             <= length (trap_files (mk_fsys [(lit "a.txt", sample_trap_file)] ∅ ∅ [])))%nat
         /\ total_events s = 0%nat
         /\ total_errors s
            = sum_list ((fun f => length (_extract_useful_lines f.2))
                          <$> trap_files (mk_fsys [(lit "a.txt", sample_trap_file)] ∅ ∅ []))
     | inl _ => False
     end.
Proof.
  split; [reflexivity|]. split; [discriminate|].
  exact (process_all_traps_summary default_settings (DbUp []) init_service init_service
           (mk_fsys [(lit "a.txt", sample_trap_file)] ∅ ∅ []) eq_refl ltac:(discriminate)).
Defined.

(** ** The service state across a run *)

Lemma svc_step_refl (d : db) (st : service) : svc_step d st st.
Proof. unfold svc_step. split; [reflexivity|]. split; [reflexivity|]. auto. Qed.

Lemma svc_step_trans (d : db) (st1 st2 st3 : service) :
  svc_step d st1 st2 -> svc_step d st2 st3 -> svc_step d st1 st3.
Proof.
  intros (H1 & H2 & H3) (H4 & H5 & H6). split; [congruence|]. split; [etrans; eassumption|].
  auto.
Qed.

Lemma get_objeto_id_step (d : db) (st : service) (identifier : pystr) :
  svc_step d st (_get_objeto_id_by_identifier d st identifier).2.
Proof.
  unfold _get_objeto_id_by_identifier.
  destruct identifier as [|c rest] eqn:Hid; [apply svc_step_refl|].
  rewrite <- Hid.
  destruct (identificadores_cache st !! identifier) as [v|] eqn:Hc; [apply svc_step_refl|].
  destruct (query_objeto_id d identifier) as [e|[oid|]] eqn:Hq; try apply svc_step_refl.
  split; [reflexivity|]. split; [apply insert_subseteq; exact Hc|].
  intros Hcoh k v Hk r Hr. simpl in Hk. destruct (decide (k = identifier)) as [->|Hne].
  - rewrite lookup_insert_eq in Hk. injection Hk as <-. congruence.
  - rewrite lookup_insert_ne in Hk by congruence. exact (Hcoh k v Hk r Hr).
Qed.

Lemma find_by_ip_loop_step (d : db) (line : pystr) (ips : list pystr) :
  forall st, let '(r, st') := find_by_ip_loop d line ips st in
  svc_step d st st' /\ r <> Some 0.
Proof.
  induction ips as [|ip ips IH]; intros st; simpl.
  { split; [apply svc_step_refl | discriminate]. }
  destruct (py_in ip line).
  - pose proof (get_objeto_id_step d st (py_strip ip)) as Hs.
    destruct (_get_objeto_id_by_identifier d st (py_strip ip)) as [r st1]. simpl in Hs.
    destruct (truthy r) eqn:Ht.
    + split; [exact Hs|]. intros ->. discriminate.
    + specialize (IH st1). destruct (find_by_ip_loop d line ips st1) as [r' st2].
      destruct IH as [Hs' Hr']. split; [eapply svc_step_trans; eassumption | exact Hr'].
  - exact (IH st).
Qed.

Lemma find_by_ip_loop_absent (d : db) (line : pystr) (ips : list pystr) (st : service) :
  Forall (fun ip => py_in ip line = false) ips -> find_by_ip_loop d line ips st = (None, st).
Proof.
  induction 1 as [|ip ips Hip _ IH]; [reflexivity|]. simpl. rewrite Hip. exact IH.
Qed.

(** [_find_by_ip] never returns the object id 0 (a falsy result makes the
    loop go on), and its lookups keep [ip_list], only add cache entries and
    keep the cache made of catalogue answers. *)
Theorem find_by_ip_frame (d : db) (st : service) (line : pystr) :
  let '(r, st') := _find_by_ip d st line in
  r <> Some 0 /\ ip_list st' = ip_list st
  /\ identificadores_cache st ⊆ identificadores_cache st'
  /\ (cache_coherent d (identificadores_cache st) ->
      cache_coherent d (identificadores_cache st')).
Proof.
  unfold _find_by_ip. pose proof (find_by_ip_loop_step d line (ip_list st) st) as H.
  destruct (find_by_ip_loop d line (ip_list st) st) as [r st'].
  destruct H as [(H1 & H2 & H3) Hr]. auto.
Qed.

(** When no loaded IP occurs in the line, [_find_by_ip] returns [None]
    without any lookup: the state is unchanged and the catalogue is not
    queried (the result is the same whatever the catalogue). *)
Theorem find_by_ip_no_ip_in_line (d : db) (st : service) (line : pystr)
    (Habsent : Forall (fun ip => py_in ip line = false) (ip_list st)) :
  _find_by_ip d st line = (None, st) /\ _find_by_ip DbDown st line = (None, st).
Proof.
  unfold _find_by_ip. split; apply find_by_ip_loop_absent; exact Habsent.
Qed.

Lemma find_by_ip_no_ip_in_line_witness :
  Forall (fun ip => py_in ip (lit "no address here") = false) (ip_list two_ip_service)
  /\ _find_by_ip two_ip_catalogue two_ip_service (lit "no address here")
     = (None, two_ip_service)
  /\ _find_by_ip DbDown two_ip_service (lit "no address here") = (None, two_ip_service).
Proof.
  assert (H : Forall (fun ip => py_in ip (lit "no address here") = false)
                (ip_list two_ip_service)).
  { apply Forall_forall. intros ip Hip. vm_compute in Hip.
    repeat (apply elem_of_cons in Hip as [->|Hip]; [vm_compute; reflexivity|]).
    apply not_elem_of_nil in Hip. contradiction. }
  split; [exact H|].
  exact (find_by_ip_no_ip_in_line two_ip_catalogue two_ip_service (lit "no address here") H).
Defined.

(** After a lookup that returned an object id, the same lookup returns it
    again from the cache, leaves the state as it is, and does so whatever
    the catalogue, even when the database is down. *)
Theorem get_objeto_id_memoised (d d' : db) (st st' : service) (identifier : pystr) (v : Z)
    (Hfirst : _get_objeto_id_by_identifier d st identifier = (Some v, st')) :
  _get_objeto_id_by_identifier d' st' identifier = (Some v, st').
Proof.
  unfold _get_objeto_id_by_identifier in *.
  destruct identifier as [|c rest] eqn:Hid; [discriminate|].
  rewrite <- Hid in *.
  destruct (identificadores_cache st !! identifier) as [w|] eqn:Hc.
  { injection Hfirst as <- <-. rewrite Hc. reflexivity. }
  destruct (query_objeto_id d identifier) as [e|[oid|]]; try discriminate.
  injection Hfirst as <- <-. simpl. rewrite lookup_insert_eq. reflexivity.
Qed.

Lemma get_objeto_id_memoised_witness :
  _get_objeto_id_by_identifier two_ip_catalogue init_service (lit "10.0.0.2")
  = (Some 7, mk_service [] {[lit "10.0.0.2" := 7]})
  /\ _get_objeto_id_by_identifier DbDown (mk_service [] {[lit "10.0.0.2" := 7]})
       (lit "10.0.0.2")
     = (Some 7, mk_service [] {[lit "10.0.0.2" := 7]}).
Proof.
  assert (H : _get_objeto_id_by_identifier two_ip_catalogue init_service (lit "10.0.0.2")
              = (Some 7, mk_service [] {[lit "10.0.0.2" := 7]})) by reflexivity.
  split; [exact H|].
  exact (get_objeto_id_memoised two_ip_catalogue DbDown init_service _ _ 7 H).
Defined.

Lemma tunnel_line_kwargs_step (cfg : settings) (d : db) (st : service)
    (line : pystr) (parts : list pystr) :
  svc_step d st (tunnel_line_kwargs cfg d st line parts).2.
Proof.
  unfold tunnel_line_kwargs. destruct (tunnel_marca line) as [marca|]; [|apply svc_step_refl].
  pose proof (get_objeto_id_step d st marca) as H1.
  destruct (_get_objeto_id_by_identifier d st marca) as [r st1]. simpl in H1.
  assert (H2 : svc_step d st
                 (if truthy r then (r, st1) else _find_by_ip d st1 line).2).
  { destruct (truthy r); [exact H1|].
    unfold _find_by_ip. pose proof (find_by_ip_loop_step d line (ip_list st1) st1) as H.
    destruct (find_by_ip_loop d line (ip_list st1) st1) as [r' st2].
    destruct H as [H _]. eapply svc_step_trans; eassumption. }
  destruct (if truthy r then (r, st1) else _find_by_ip d st1 line) as [r2 st2].
  simpl in H2. destruct r2 as [oid|]; [destruct (truthy (Some oid))|]; exact H2.
Qed.

Lemma object_name_line_kwargs_step (cfg : settings) (d : db) (st : service)
    (line : pystr) (parts : list pystr) :
  svc_step d st (object_name_line_kwargs cfg d st line parts).2.
Proof.
  unfold object_name_line_kwargs.
  destruct (object_name_marca line) as [marca|]; [|apply svc_step_refl].
  pose proof (get_objeto_id_step d st marca) as H1.
  destruct (_get_objeto_id_by_identifier d st marca) as [r st1]. simpl in H1.
  destruct r as [oid|]; [destruct (truthy (Some oid))|]; exact H1.
Qed.

Lemma process_line_step (cfg : settings) (d : db) (st : service) (line : pystr) :
  svc_step d st (_process_line cfg d st line).2.
Proof.
  unfold _process_line.
  destruct (bool_decide _); [apply svc_step_refl|].
  destruct (py_in (lit "Tunnel") line).
  { unfold _process_tunnel_line.
    pose proof (tunnel_line_kwargs_step cfg d st line (py_split TAB line)) as H.
    destruct (tunnel_line_kwargs cfg d st line (py_split TAB line)). exact H. }
  destruct (py_in (lit "Object_Name=") line); [|apply svc_step_refl].
  unfold _process_object_name_line.
  pose proof (object_name_line_kwargs_step cfg d st line (py_split TAB line)) as H.
  destruct (object_name_line_kwargs cfg d st line (py_split TAB line)). exact H.
Qed.

Lemma process_lines_step (cfg : settings) (d : db) (lines : list pystr) :
  forall st, svc_step d st (process_lines cfg d st lines).2.
Proof.
  induction lines as [|line lines IH]; intros st; [apply svc_step_refl|].
  simpl. pose proof (process_line_step cfg d st line) as H1.
  destruct (_process_line cfg d st line) as [ev st1]. simpl in H1.
  specialize (IH st1). destruct (process_lines cfg d st1 lines) as [[evs errs] st2].
  simpl in IH. destruct ev; simpl; eapply svc_step_trans; eassumption.
Qed.

Lemma process_files_step (cfg : settings) (d : db) (tfiles : list (pystr * pystr)) :
  forall st fs, svc_step d st (process_files cfg d st tfiles fs).1.2.
Proof.
  induction tfiles as [|[name content] tfiles IH]; intros st fs; [apply svc_step_refl|].
  cbn [process_files].
  assert (H1 : svc_step d st (process_file cfg d st (name, content) fs).1.2).
  { unfold process_file.
    pose proof (process_lines_step cfg d (_extract_useful_lines content) st) as H.
    destruct (process_lines cfg d st (_extract_useful_lines content)) as [[evs errs] st1].
    destruct (_generate_sql_script _ _ _ _). destruct (write_errors _ _ _ _). exact H. }
  destruct (process_file cfg d st (name, content) fs) as [[r st1] fs1]. simpl in H1.
  specialize (IH st1 fs1). destruct (process_files cfg d st1 tfiles fs1) as [[rs st2] fs2].
  simpl in IH |- *. eapply svc_step_trans; eassumption.
Qed.

(** Across [process_all_traps] the service state evolves as the code shows:
    when the IP query raises, the state is untouched; otherwise [ip_list] is
    exactly the list the query returned, the cache only gained entries, and
    a cache holding catalogue answers still holds only catalogue answers. *)
Theorem process_all_traps_service (cfg : settings) (d : db) (st : service) (fs : fsys) :
  let '(r, st', _) := process_all_traps cfg d st fs in
  match r with
  | inl _ => st' = st
  | inr _ =>
      exists ips, query_ips cfg d = inr ips /\ ip_list st' = ips
      /\ identificadores_cache st ⊆ identificadores_cache st'
      /\ (cache_coherent d (identificadores_cache st) ->
          cache_coherent d (identificadores_cache st'))
  end.
Proof.
  unfold process_all_traps, _load_ip_list.
  destruct (query_ips cfg d) as [e|ips] eqn:Hq; [reflexivity|].
  replace (trap_files (fs_log IoGlob (fs_log IoLoadIps fs))) with (trap_files fs)
    by reflexivity.
  destruct (trap_files fs) as [|f tfiles].
  { exists ips. split; [reflexivity|]. split; [reflexivity|]. split; [reflexivity|]. auto. }
  cbv beta iota zeta.
  pose proof (process_files_step cfg d (f :: tfiles) (mk_service ips (identificadores_cache st))
                (fs_log IoGlob (fs_log IoLoadIps fs))) as H.
  destruct (process_files cfg d (mk_service ips (identificadores_cache st)) (f :: tfiles)
              (fs_log IoGlob (fs_log IoLoadIps fs))) as [[rs st2] fs2].
  destruct H as (H1 & H2 & H3). exists ips. auto.
Qed.

(** ** [_extract_date] on well-formed tokens *)

Lemma elem_here {A} (x : A) (l : list A) : x ∈ x :: l.
Proof. apply elem_of_cons. left. reflexivity. Qed.

Lemma is_digits_forall (s : pystr) :
  is_digits s = true -> s <> [] /\ forall c, c ∈ s -> is_Some (digit_val c).
Proof.
  unfold is_digits. intros H. apply andb_true_iff in H as [H1 H2].
  apply bool_decide_eq_true in H1. split; [exact H1|].
  intros c Hc. rewrite forallb_forall in H2. apply list_elem_of_In in Hc.
  specialize (H2 c Hc). apply bool_decide_eq_true in H2. exact H2.
Qed.

Lemma int_digits_val (s : pystr) :
  (forall c, c ∈ s -> is_Some (digit_val c)) ->
  forall acc, int_digits acc s
              = Some (fold_left (fun acc c => 10 * acc + default 0 (digit_val c)) s acc).
Proof.
  induction s as [|c s IH]; intros Hd acc; [reflexivity|].
  simpl. destruct (Hd c (elem_here c s)) as [d Hc]. rewrite Hc. simpl.
  apply IH. intros c' Hc'. apply Hd. apply elem_of_cons. right. exact Hc'.
Qed.

Lemma digit_not_space (c : ascii) : is_Some (digit_val c) -> py_isspace c = false.
Proof.
  unfold digit_val, py_isspace. intros [d Hd].
  case_bool_decide as Hr; [|discriminate]. apply bool_decide_eq_false. lia.
Qed.

Lemma py_lstrip_nonspace (s : pystr) :
  (forall c, c ∈ s -> py_isspace c = false) -> py_lstrip s = s.
Proof.
  destruct s as [|c s]; intros H; [reflexivity|]. simpl.
  rewrite (H c (elem_here c s)). reflexivity.
Qed.

Lemma py_strip_nonspace (s : pystr) :
  (forall c, c ∈ s -> py_isspace c = false) -> py_strip s = s.
Proof.
  intros H. unfold py_strip, py_rstrip. rewrite (py_lstrip_nonspace s H).
  rewrite py_lstrip_nonspace; [apply reverse_involutive|].
  intros c Hc. apply H. rewrite <- elem_of_reverse. exact Hc.
Qed.

Lemma py_int_nosign (s : pystr) :
  py_strip s = s -> head s <> Some "-"%char -> head s <> Some "+"%char ->
  py_int s = int_unsigned s.
Proof.
  unfold py_int. intros -> H1 H2. destruct s as [|c r]; [reflexivity|].
  destruct c as [[] [] [] [] [] [] [] []]; try reflexivity;
    (exfalso; first [apply H1; reflexivity | apply H2; reflexivity]).
Qed.

Lemma py_int_digits (s : pystr) : is_digits s = true -> py_int s = Some (dec_val s).
Proof.
  intros Hs. apply is_digits_forall in Hs as [Hne Hd].
  rewrite py_int_nosign.
  - destruct s as [|c r]; [contradiction|]. simpl.
    destruct (Hd c (elem_here c r)) as [d Hc]. rewrite Hc.
    rewrite int_digits_val.
    + unfold dec_val. simpl. rewrite Hc. reflexivity.
    + intros c' Hc'. apply Hd. apply elem_of_cons. right. exact Hc'.
  - apply py_strip_nonspace. intros c Hc. apply digit_not_space, Hd, Hc.
  - destruct s as [|c r]; [contradiction|]. simpl. intros [= ->].
    destruct (Hd _ (elem_here _ r)) as [? Hx]. discriminate.
  - destruct s as [|c r]; [contradiction|]. simpl. intros [= ->].
    destruct (Hd _ (elem_here _ r)) as [? Hx]. discriminate.
Qed.

Lemma digits_not_elem (s : pystr) (sep : ascii) :
  is_digits s = true -> digit_val sep = None -> sep ∉ s.
Proof.
  intros Hs Hsep Hin. apply is_digits_forall in Hs as [_ Hd].
  destruct (Hd sep Hin) as [x Hx]. congruence.
Qed.

Lemma py_split_nosep (sep : ascii) (s : pystr) : sep ∉ s -> py_split sep s = [s].
Proof.
  induction s as [|c s IH]; intros Hn; [reflexivity|].
  simpl. rewrite bool_decide_false.
  - rewrite IH; [reflexivity|]. intros Hin. apply Hn. apply elem_of_cons. right. exact Hin.
  - intros ->. apply Hn. apply elem_here.
Qed.

Lemma py_split_app_sep (sep : ascii) (a b : pystr) :
  sep ∉ a -> py_split sep (a ++ sep :: b) = a :: py_split sep b.
Proof.
  induction a as [|c a IH]; intros Hn.
  { simpl. rewrite bool_decide_true by reflexivity. reflexivity. }
  simpl. rewrite bool_decide_false.
  - rewrite IH; [reflexivity|]. intros Hin. apply Hn. apply elem_of_cons. right. exact Hin.
  - intros ->. apply Hn. apply elem_here.
Qed.

Lemma not_elem_app (x : ascii) (a b : pystr) : x ∉ a -> x ∉ b -> x ∉ a ++ b.
Proof. intros Ha Hb Hin. apply elem_of_app in Hin as [?|?]; contradiction. Qed.

Lemma not_elem_cons (x y : ascii) (b : pystr) : x <> y -> x ∉ b -> x ∉ y :: b.
Proof. intros Hxy Hb Hin. apply elem_of_cons in Hin as [?|?]; contradiction. Qed.

(** [_extract_date] parses every token of the trap-log shape
    [Y-M-DDH:Mi:SS<rest>] (digit fields, a two-digit day glued to the hour,
    a two-digit second followed by any text without [-] or [:], such as
    fractional seconds): the result is [datetime(Y, M, DD, H, Mi, SS)],
    hence the timestamp itself when the fields are in range and [None]
    (the caught [ValueError]) otherwise. *)
Theorem extract_date_parses (Y M D H Mi S rest : pystr)
    (HY : is_digits Y = true) (HM : is_digits M = true)
    (HD : is_digits D = true) (HDl : length D = 2%nat)
    (HH : is_digits H = true) (HMi : is_digits Mi = true)
    (HS : is_digits S = true) (HSl : length S = 2%nat)
    (Hr1 : "-"%char ∉ rest) (Hr2 : ":"%char ∉ rest) :
  _extract_date (Y ++ "-"%char :: M ++ "-"%char :: D ++ H ++ ":"%char :: Mi
                 ++ ":"%char :: S ++ rest)
  = py_datetime (dec_val Y) (dec_val M) (dec_val D) (dec_val H) (dec_val Mi) (dec_val S).
Proof.
  assert (Hdash : digit_val "-"%char = None) by reflexivity.
  assert (Hcolon : digit_val ":"%char = None) by reflexivity.
  unfold _extract_date.
  rewrite (py_split_app_sep _ Y) by (apply digits_not_elem; assumption).
  rewrite (py_split_app_sep _ M) by (apply digits_not_elem; assumption).
  rewrite (py_split_nosep "-"%char (D ++ H ++ ":"%char :: Mi ++ ":"%char :: S ++ rest)).
  2:{ repeat first [ apply not_elem_app | apply not_elem_cons; [discriminate|]
                   | apply digits_not_elem; assumption | assumption ]. }
  unfold py_get. cbn [lookup list_lookup]. cbn [mbind option_bind].
  rewrite (py_int_digits Y HY). cbn [mbind option_bind].
  rewrite (py_int_digits M HM). cbn [mbind option_bind].
  unfold py_prefix, py_from.
  rewrite take_app_length' by (symmetry; exact HDl). rewrite (py_int_digits D HD).
  cbn [mbind option_bind].
  rewrite drop_app_length' by (symmetry; exact HDl).
  rewrite (py_split_app_sep _ H) by (apply digits_not_elem; assumption).
  rewrite (py_split_app_sep _ Mi) by (apply digits_not_elem; assumption).
  rewrite (py_split_nosep ":"%char (S ++ rest)).
  2:{ apply not_elem_app; [apply digits_not_elem|]; assumption. }
  cbn [lookup list_lookup mbind option_bind].
  rewrite (py_int_digits H HH). cbn [mbind option_bind].
  rewrite (py_int_digits Mi HMi). cbn [mbind option_bind].
  rewrite take_app_length' by (symmetry; exact HSl). rewrite (py_int_digits S HS).
  reflexivity.
Qed.

Lemma extract_date_parses_witness :
  _extract_date (lit "2025" ++ "-"%char :: lit "3" ++ "-"%char :: lit "14" ++ lit "09"
                 ++ ":"%char :: lit "15" ++ ":"%char :: lit "42" ++ lit ".500")
  = Some (mk_datetime 2025 3 14 9 15 42).
Proof.
  rewrite (extract_date_parses (lit "2025") (lit "3") (lit "14") (lit "09") (lit "15")
             (lit "42") (lit ".500")); try reflexivity; vm_compute; intros Hin;
    repeat (apply elem_of_cons in Hin as [Hin|Hin]; [discriminate|]);
    apply not_elem_of_nil in Hin; exact Hin.
Defined.

(** ** [_remove_duplicates]: no-op cases *)

Lemma remove_duplicates_loop_distinct (seen : gset event_key_t) (l : list EventoCreate) :
  NoDup (event_key <$> l) -> (forall e, e ∈ l -> event_key e ∉ seen) ->
  remove_duplicates_loop seen l = l.
Proof.
  revert seen. induction l as [|e l IH]; intros seen Hnd Hfresh; [reflexivity|].
  rewrite fmap_cons in Hnd. apply NoDup_cons in Hnd as [Hnot Hnd].
  simpl. rewrite bool_decide_true by (apply Hfresh, elem_here).
  f_equal. apply IH; [exact Hnd|].
  intros e' He' Hin. apply elem_of_union in Hin as [Hin|Hin].
  - apply elem_of_singleton in Hin. apply Hnot. rewrite <- Hin.
    apply list_elem_of_fmap. exists e'. split; [reflexivity|exact He'].
  - apply (Hfresh e'); [apply elem_of_cons; right; exact He'|exact Hin].
Qed.

(** A batch whose events have pairwise distinct
    [(objeto_id, tipo_evento, fecha)] keys is returned unchanged by
    [_remove_duplicates]. *)
Theorem remove_duplicates_distinct (events : list EventoCreate)
    (Hnd : NoDup (event_key <$> events)) :
  _remove_duplicates events = events.
Proof.
  apply remove_duplicates_loop_distinct; [exact Hnd|]. intros e _. set_solver.
Qed.

Lemma remove_duplicates_distinct_witness :
  NoDup (event_key <$> [mk_evento 42 1 1 (mk_datetime 2025 3 14 9 15 42) None;
                        mk_evento 42 2 1 (mk_datetime 2025 3 14 9 15 42) None])
  /\ _remove_duplicates [mk_evento 42 1 1 (mk_datetime 2025 3 14 9 15 42) None;
                         mk_evento 42 2 1 (mk_datetime 2025 3 14 9 15 42) None]
     = [mk_evento 42 1 1 (mk_datetime 2025 3 14 9 15 42) None;
        mk_evento 42 2 1 (mk_datetime 2025 3 14 9 15 42) None].
Proof.
  assert (H : NoDup (event_key <$> [mk_evento 42 1 1 (mk_datetime 2025 3 14 9 15 42) None;
                                    mk_evento 42 2 1 (mk_datetime 2025 3 14 9 15 42) None]))
    by (apply (bool_decide_unpack _); vm_compute; reflexivity).
  split; [exact H|]. exact (remove_duplicates_distinct _ H).
Defined.

(** [_remove_duplicates] is idempotent: deduplicating its output again
    changes nothing. *)
Theorem remove_duplicates_idempotent (events : list EventoCreate) :
  _remove_duplicates (_remove_duplicates events) = _remove_duplicates events.
Proof.
  destruct (remove_duplicates_loop_props ∅ events) as (_ & Hnd & _).
  apply remove_duplicates_loop_distinct; [exact Hnd|]. intros e _. set_solver.
Qed.

(** ** Useful lines and the error file read back *)

Lemma py_lines_acc_shape (s : pystr) :
  forall cur, NL ∉ cur -> forall l, l ∈ py_lines_acc cur s ->
  exists b, (NL ∉ b) /\ (l = b \/ l = b ++ [NL]).
Proof.
  induction s as [|c s IH]; intros cur Hcur l Hl; simpl in Hl.
  - destruct cur as [|x cur']; [apply not_elem_of_nil in Hl; contradiction|].
    apply elem_of_cons in Hl as [->|Hl]; [|apply not_elem_of_nil in Hl; contradiction].
    exists (reverse (x :: cur')). split; [|left; reflexivity].
    rewrite elem_of_reverse. exact Hcur.
  - case_bool_decide as Hc.
    + apply elem_of_cons in Hl as [->|Hl].
      * exists (reverse cur). split; [rewrite elem_of_reverse; exact Hcur|].
        right. rewrite reverse_cons, Hc. reflexivity.
      * apply (IH [] (not_elem_of_nil _) l Hl).
    + apply (IH (c :: cur)); [|exact Hl].
      apply not_elem_cons; [|exact Hcur]. intros Heq. apply Hc. symmetry. exact Heq.
Qed.

Lemma py_lstrip_app (b k : pystr) :
  (py_lstrip b <> [] -> py_lstrip (b ++ k) = py_lstrip b ++ k)
  /\ (py_lstrip b = [] -> py_lstrip (b ++ k) = py_lstrip k).
Proof.
  induction b as [|c b IH]; simpl.
  - split; [intros H; contradiction | reflexivity].
  - destruct (py_isspace c); [exact IH|]. split; [reflexivity|discriminate].
Qed.

Lemma py_strip_snoc_NL (b : pystr) : py_strip (b ++ [NL]) = py_strip b.
Proof.
  unfold py_strip, py_rstrip. destruct (py_lstrip_app b [NL]) as [H1 H2].
  destruct (py_lstrip b) as [|c r] eqn:Hb.
  - rewrite H2 by reflexivity. reflexivity.
  - rewrite H1 by discriminate. rewrite reverse_app. reflexivity.
Qed.

Lemma py_lstrip_sub (x : ascii) (s : pystr) : x ∈ py_lstrip s -> x ∈ s.
Proof.
  induction s as [|c s IH]; simpl; [tauto|].
  destruct (py_isspace c); [intros H; apply elem_of_cons; right; auto | tauto].
Qed.

Lemma py_strip_sub (x : ascii) (s : pystr) : x ∈ py_strip s -> x ∈ s.
Proof.
  unfold py_strip, py_rstrip. intros H.
  apply elem_of_reverse, py_lstrip_sub, elem_of_reverse, py_lstrip_sub in H. exact H.
Qed.

Lemma useful_lines_shape_core (content line : pystr) :
  line ∈ _extract_useful_lines content ->
  is_useful line = true /\ NL ∉ line.
Proof.
  intros Hline. unfold _extract_useful_lines in Hline.
  apply list_elem_of_fmap in Hline as (raw & -> & Hraw).
  apply list_elem_of_filter in Hraw as [Hu Hraw]. split.
  - unfold is_useful in *. apply existsb_exists in Hu as (p & Hp & Hin).
    apply existsb_exists. exists p. split; [exact Hp|].
    apply py_in_strip; [|exact Hin].
    pose proof patterns_edges_nonspace as Hall. rewrite Forall_forall in Hall.
    apply Hall. apply list_elem_of_In. exact Hp.
  - destruct (py_lines_acc_shape content [] (not_elem_of_nil _) raw Hraw)
      as (b & Hb & [->| ->]).
    + intros Hin. apply Hb, py_strip_sub, Hin.
    + rewrite py_strip_snoc_NL. intros Hin. apply Hb, py_strip_sub, Hin.
Qed.

(** Every line [_extract_useful_lines] returns still contains a phrase of
    [UP_PATTERNS] or [DOWN_PATTERNS] after stripping, so it passes the
    usefulness filter again, and it contains no newline: the line
    terminator of text-mode iteration is removed by [strip]. *)
Theorem useful_lines_shape (content line : pystr)
    (Hline : line ∈ _extract_useful_lines content) :
  is_useful line = true /\ NL ∉ line.
Proof. exact (useful_lines_shape_core content line Hline). Qed.

Lemma useful_lines_shape_witness :
  sample_useful_line ∈ _extract_useful_lines sample_trap_file
  /\ is_useful sample_useful_line = true /\ NL ∉ sample_useful_line.
Proof.
  assert (H : sample_useful_line ∈ _extract_useful_lines sample_trap_file).
  { replace (_extract_useful_lines sample_trap_file) with [sample_useful_line]
      by (vm_compute; reflexivity).
    apply elem_here. }
  split; [exact H|]. exact (useful_lines_shape sample_trap_file sample_useful_line H).
Defined.

Lemma py_lines_acc_app (e rest : pystr) :
  NL ∉ e -> forall cur,
  py_lines_acc cur (e ++ NL :: rest) = (reverse cur ++ e ++ [NL]) :: py_lines_acc [] rest.
Proof.
  induction e as [|c e IH]; intros He cur; simpl.
  - rewrite reverse_cons. reflexivity.
  - rewrite bool_decide_false.
    + rewrite IH.
      * rewrite reverse_cons, <- app_assoc. reflexivity.
      * intros Hin. apply He. apply elem_of_cons. right. exact Hin.
    + intros ->. apply He. apply elem_here.
Qed.

Lemma py_lines_terminated (errs : list pystr) :
  Forall (fun e => NL ∉ e) errs ->
  py_lines (mjoin ((fun e => e ++ [NL]) <$> errs)) = (fun e => e ++ [NL]) <$> errs.
Proof.
  unfold py_lines. induction 1 as [|e errs He _ IH]; [reflexivity|].
  rewrite fmap_cons. simpl. rewrite <- app_assoc. simpl.
  rewrite (py_lines_acc_app e _ He []). rewrite IH. reflexivity.
Qed.

Lemma error_prefix_no_NL : NL ∉ lit "No se pudo procesar: ".
Proof.
  intros Hin. vm_compute in Hin.
  repeat (apply elem_of_cons in Hin as [Hin|Hin]; [discriminate|]).
  apply not_elem_of_nil in Hin. exact Hin.
Qed.

(** Reading the error file of [process_file] back line by line (as
    [_extract_useful_lines] reads a trap file) gives one line per useful
    line of the trap file, in order:
    ["No se pudo procesar: <line>\n"]; no message spans two lines. *)
Theorem process_file_error_lines (cfg : settings) (d : db) (st : service)
    (name content : pystr) (fs : fsys) :
  let '(r, _, fs') := process_file cfg d st (name, content) fs in
  forall p, fr_error_file r = Some p ->
  exists text, files fs' !! p = Some text
  /\ py_lines text
     = (fun line => lit "No se pudo procesar: " ++ line ++ [NL]) <$> _extract_useful_lines content.
Proof.
  pose proof (process_file_shape cfg d st name content fs) as H.
  destruct (process_file cfg d st (name, content) fs) as [[r st'] fs'].
  destruct H as (_ & _ & _ & Hnone & Hfile & Hpath).
  intros p Hp. rewrite (Hpath p Hp).
  destruct (_extract_useful_lines content) as [|u us] eqn:HU.
  { pose proof (proj2 Hnone eq_refl). congruence. }
  eexists. split; [apply (Hfile u us eq_refl)|].
  rewrite py_lines_terminated.
  - rewrite <- list_fmap_compose. apply list_fmap_ext. intros i x _.
    unfold compose. rewrite <- app_assoc. reflexivity.
  - apply Forall_forall. intros m Hm. apply list_elem_of_fmap in Hm as (x & -> & Hx).
    apply not_elem_app; [exact error_prefix_no_NL|].
    rewrite <- HU in Hx. apply (proj2 (useful_lines_shape_core content x Hx)).
Qed.

(** ** What a run does to the file system *)











(** ** The identifier of an [Object_Name=] line *)

Lemma py_find_at (sub s : pystr) (i : nat) :
  py_find sub s = Some i -> exists b, s = take i s ++ sub ++ b /\ length (take i s) = i.
Proof.
  revert i. induction s as [|c s IH]; intros i H; rewrite py_find_eq in H.
  - destruct (py_startswith sub []) eqn:E; [|discriminate].
    injection H as <-. apply py_startswith_app in E as [k Hk]. exists k. split; [exact Hk|].
    reflexivity.
  - destruct (py_startswith sub (c :: s)) eqn:E.
    + injection H as <-. apply py_startswith_app in E as [k Hk]. exists k. split; [exact Hk|].
      reflexivity.
    + destruct (py_find sub s) as [j|] eqn:Hj; [|discriminate].
      injection H as <-. destruct (IH j eq_refl) as (b & Hb & Hl).
      exists b. simpl. split; [f_equal; exact Hb | rewrite Hl; reflexivity].
Qed.

Lemma py_split_nonempty (sep : ascii) (s : pystr) : py_split sep s <> [].
Proof.
  destruct s as [|c s]; simpl; [discriminate|].
  destruct (bool_decide (c = sep)); [discriminate|].
  destruct (py_split sep s); discriminate.
Qed.

Lemma py_split_first (sep : ascii) (s w : pystr) :
  py_get (py_split sep s) 0 = Some w ->
  (sep ∉ w) /\ exists rest, s = w ++ rest /\ (rest = [] \/ head rest = Some sep).
Proof.
  unfold py_get. revert w. induction s as [|c s IH]; intros w H; simpl in H.
  - injection H as <-. split; [apply not_elem_of_nil|]. exists []. auto.
  - case_bool_decide as Hc.
    + injection H as <-. split; [apply not_elem_of_nil|].
      exists (c :: s). split; [reflexivity|]. right. rewrite Hc. reflexivity.
    + destruct (py_split sep s) as [|w' ws] eqn:Hs.
      { exfalso. exact (py_split_nonempty sep s Hs). }
      injection H as <-. destruct (IH w' eq_refl) as (Hw' & rest & Hr & Hrest).
      split.
      * apply not_elem_cons; [|exact Hw']. intros Heq. apply Hc. symmetry. exact Heq.
      * exists rest. split; [rewrite Hr; reflexivity | exact Hrest].
Qed.

(** The identifier [_process_object_name_line] looks up is the text right
    after the first ["Object_Name="] of the line, up to the first ["."]
    after it or the end of the line: it contains no ["."]. *)
Theorem object_name_marca_spec (line m : pystr) (H : object_name_marca line = Some m) :
  exists pre post,
    line = pre ++ lit "Object_Name=" ++ m ++ post
    /\ py_find (lit "Object_Name=") line = Some (length pre)
    /\ ("."%char ∉ m)
    /\ (post = [] \/ head post = Some "."%char).
Proof.
  unfold object_name_marca, py_index in H.
  destruct (py_find (lit "Object_Name=") line) as [i|] eqn:Hf; [|discriminate].
  cbn [fmap option_fmap option_map mbind option_bind] in H.
  destruct (py_find_at _ _ _ Hf) as (b & Hline & Hlen).
  assert (Hpart : py_slice line (Z.of_nat i + 12) (Z.of_nat (length line)) = b).
  { unfold py_slice, slice_bound.
    assert (Hl : length line = (i + 12 + length b)%nat).
    { rewrite Hline at 1. rewrite !length_app, Hlen.
      change (length (lit "Object_Name=")) with 12%nat. lia. }
    rewrite Hl.
    rewrite (proj2 (Z.ltb_ge _ _)) by lia. rewrite (proj2 (Z.ltb_ge _ _)) by lia.
    rewrite Z.min_l by lia. rewrite Z.min_l by lia.
    replace (Z.to_nat (Z.of_nat i + 12)) with (i + 12)%nat by lia.
    replace (Z.to_nat (Z.of_nat (i + 12 + length b) - (Z.of_nat i + 12)))
      with (length b) by lia.
    rewrite Hline at 1. rewrite app_assoc, drop_app_length'.
    - apply take_ge. lia.
    - rewrite length_app, Hlen. reflexivity. }
  rewrite Hpart in H.
  destruct (py_split_first "."%char b m H) as (Hm & post & Hb & Hpost).
  exists (take i line), post. split; [|split; [|split]].
  - rewrite Hline at 1. rewrite Hb. reflexivity.
  - rewrite Hlen. first [exact Hf | reflexivity].
  - exact Hm.
  - exact Hpost.
Qed.

Lemma object_name_marca_spec_witness :
  object_name_marca (lit "x Object_Name=R1.lan") = Some (lit "R1")
  /\ exists pre post,
       lit "x Object_Name=R1.lan" = pre ++ lit "Object_Name=" ++ lit "R1" ++ post
       /\ py_find (lit "Object_Name=") (lit "x Object_Name=R1.lan") = Some (length pre)
       /\ ("."%char ∉ lit "R1")
       /\ (post = [] \/ head post = Some "."%char).
Proof.
  assert (H : object_name_marca (lit "x Object_Name=R1.lan") = Some (lit "R1"))
    by (vm_compute; reflexivity).
  split; [exact H|]. exact (object_name_marca_spec _ _ H).
Defined.

(** ** Tunnel lines whose ["from"] precedes ["Tunnel"] *)

Lemma py_slice_empty (s : pystr) (a b : Z) :
  0 <= a -> 0 <= b -> b <= a -> py_slice s a b = [].
Proof.
  intros Ha Hb Hab. unfold py_slice, slice_bound.
  rewrite (proj2 (Z.ltb_ge a 0)) by lia. rewrite (proj2 (Z.ltb_ge b 0)) by lia.
  destruct (Z.to_nat (Z.min b (Z.of_nat (length s)) - Z.min a (Z.of_nat (length s))))
    eqn:E; [reflexivity|].
  exfalso. pose proof (Z.min_le_compat_r b a (Z.of_nat (length s)) Hab). lia.
Qed.

(** On a ["FULL to DOWN"] or ["LOADING to FULL"] line whose first ["from"]
    comes before its first ["Tunnel"], the slice [line[idx_tunnel:idx_from]]
    is empty, so the identifier lookup returns [None] without a query and
    the object can only be found by [_find_by_ip]: the tunnel path behaves
    exactly as the IP fallback alone. *)
Theorem tunnel_from_before_tunnel (cfg : settings) (d : db) (st : service)
    (line : pystr) (parts : list pystr) (i j : Z)
    (Hphrase : py_in (lit "FULL to DOWN") line || py_in (lit "LOADING to FULL") line = true)
    (Hi : py_index line (lit "Tunnel") = Some i) (Hj : py_index line (lit "from") = Some j)
    (Hji : j <= i) :
  tunnel_marca line = Some []
  /\ tunnel_line_kwargs cfg d st line parts
     = let '(objeto_id, st2) := _find_by_ip d st line in
       match objeto_id with
       | Some oid => if truthy (Some oid) then (event_kwargs cfg line parts oid, st2)
                     else (None, st2)
       | None => (None, st2)
       end.
Proof.
  assert (Hm : tunnel_marca line = Some []).
  { unfold tunnel_marca. rewrite Hphrase, Hi, Hj. cbn [mbind option_bind].
    assert (Hi0 : 0 <= i).
    { unfold py_index in Hi. destruct (py_find _ line); [|discriminate].
      injection Hi as <-. lia. }
    assert (Hj0 : 0 <= j).
    { unfold py_index in Hj. destruct (py_find _ line); [|discriminate].
      injection Hj as <-. lia. }
    rewrite py_slice_empty by lia. reflexivity. }
  split; [exact Hm|]. unfold tunnel_line_kwargs. rewrite Hm. reflexivity.
Qed.

Lemma tunnel_from_before_tunnel_witness :
  let line := sample_date ++ [TAB] ++ lit "Nbr from 10.0.0.2 on Tunnel5 FULL to DOWN" in
  (py_in (lit "FULL to DOWN") line || py_in (lit "LOADING to FULL") line = true)
  /\ py_index line (lit "Tunnel") = Some 43
  /\ py_index line (lit "from") = Some 26
  /\ tunnel_marca line = Some []
  /\ tunnel_line_kwargs default_settings two_ip_catalogue two_ip_service line
       (py_split TAB line)
     = let '(objeto_id, st2) := _find_by_ip two_ip_catalogue two_ip_service line in
       match objeto_id with
       | Some oid => if truthy (Some oid)
                     then (event_kwargs default_settings line (py_split TAB line) oid, st2)
                     else (None, st2)
       | None => (None, st2)
       end.
Proof.
  intros line.
  assert (H1 : py_in (lit "FULL to DOWN") line || py_in (lit "LOADING to FULL") line = true)
    by (vm_compute; reflexivity).
  assert (H2 : py_index line (lit "Tunnel") = Some 43) by (vm_compute; reflexivity).
  assert (H3 : py_index line (lit "from") = Some 26) by (vm_compute; reflexivity).
  split; [exact H1|]. split; [exact H2|]. split; [exact H3|].
  exact (tunnel_from_before_tunnel default_settings two_ip_catalogue two_ip_service line
           (py_split TAB line) 43 26 H1 H2 H3 ltac:(lia)).
Defined.
